(** * interest_rate_prod: zero-coupon curves and forward-rate agreements

    A shallow embedding of [interest_rate_prod.py] (classes [ZCB_curve] and
    [FRA]) and the properties of its specification.

    Conventions of the embedding.
    - A Python call either returns or raises: [outcome A].
    - A float is a finite IEEE double idealised as the real number it stands
      for.  numpy does not raise on a division by zero, a logarithm of a
      non-positive number or a power outside the real domain: it returns
      [inf] or [nan] and goes on.  Such a value is [None] in [float], and
      every operation that receives [None] returns [None]; so [Some x] always
      means: finite, and equal to [x] in exact arithmetic.  Rounding is not
      modelled.
    - Overflow to [inf] and underflow to 0 are modelled where arguments of
      ordinary size reach them: in [get_forward_rate], which feeds yields in
      percent, times maturities in years, to [np.exp] and to [**] ([np_exp],
      [np_pow]).  The conversions of [__init__] divide the yield by 100
      first; they are written with the exact [f_exp] and [f_pow], and what
      is proved of them holds of the doubles as long as no intermediate
      value leaves the range of the finite doubles.
    - Calendar dates are their proleptic Gregorian ordinals, as
      [datetime.date.toordinal] gives them.
    - [print] calls are left out, except for what evaluating their arguments
      can raise. *)

From Stdlib Require Import Reals Lra Lia ZArith List String Ascii Bool Sorted.
From Stdlib Require Import Zfloor.
Import ListNotations.

(** ** Outcomes of a Python call *)

Inductive exn : Set :=
| AssertionError
| TypeError
| ValueError
| UnboundLocalError
| OverflowError
| ZeroDivisionError.

Inductive outcome (A : Type) : Type :=
| Ok (a : A)
| Raise (e : exn).

Arguments Ok {A} a.
Arguments Raise {A} e.

Definition bind {A B : Type} (c : outcome A) (k : A -> outcome B) : outcome B :=
  match c with
  | Ok a => k a
  | Raise e => Raise e
  end.

Notation "x <- c ;; k" := (bind c (fun x => k))
  (at level 61, c at next level, right associativity).
Notation "c ;;; k" := (bind c (fun _ => k))
  (at level 61, right associativity).

(** Python's [assert b]. *)
Definition assert (b : bool) : outcome unit :=
  if b then Ok tt else Raise AssertionError.

Definition raises {A : Type} (c : outcome A) : Prop :=
  exists e, c = Raise e.

(** ** Numbers *)

Open Scope R_scope.

Definition R_leb (x y : R) : bool := if Rle_dec x y then true else false.
Definition R_ltb (x y : R) : bool := if Rlt_dec x y then true else false.
Definition R_eqb (x y : R) : bool := if Req_dec_T x y then true else false.

Definition float : Type := option R.

Definition fin (x : R) : float := Some x.

Definition f_lift2 (op : R -> R -> R) (a b : float) : float :=
  match a, b with
  | Some x, Some y => Some (op x y)
  | _, _ => None
  end.

Definition f_add : float -> float -> float := f_lift2 Rplus.
Definition f_sub : float -> float -> float := f_lift2 Rminus.
Definition f_mul : float -> float -> float := f_lift2 Rmult.

(** numpy's true division: [x / 0] is [inf] or [nan], with a warning. *)
Definition f_div (a b : float) : float :=
  match a, b with
  | Some x, Some y => if R_eqb y 0 then None else Some (x / y)
  | _, _ => None
  end.

Definition f_exp (a : float) : float := option_map exp a.

(** [np.log]: [-inf] at 0 and [nan] below. *)
Definition f_log (a : float) : float :=
  match a with
  | Some x => if R_ltb 0 x then Some (ln x) else None
  | None => None
  end.

(** Whether a real is an integer, as the C [pow] tests its exponent. *)
Definition is_integer (y : R) : bool := R_eqb (IZR (Zfloor y)) y.

(** [x ** y] on doubles (C [pow]): a positive base takes any exponent; a zero
    base gives 0, 1 or [inf]; a negative base needs an integer exponent and
    gives [nan] otherwise. *)
Definition pow_R (x y : R) : float :=
  if R_ltb 0 x then Some (Rpower x y)
  else if R_eqb x 0 then
    (if R_ltb 0 y then Some 0 else if R_eqb y 0 then Some 1 else None)
  else if is_integer y then Some (powerRZ x (Zfloor y))
  else None.

Definition f_pow (a b : float) : float :=
  match a, b with
  | Some x, Some y => pow_R x y
  | _, _ => None
  end.

(** The largest finite double, [(2^53 - 1) * 2^971], and the smallest
    positive one, [2^-1074]. *)
Definition DBL_MAX : R := IZR ((2 ^ 53 - 1) * 2 ^ 971)%Z.
Definition DBL_TRUE_MIN : R := / IZR (2 ^ 1074)%Z.

(** The double of an exact result, rounding apart: [inf] beyond [DBL_MAX],
    and 0 below the smallest positive double. *)
Definition np_round (v : R) : float :=
  if R_ltb DBL_MAX (Rabs v) then None
  else if R_ltb (Rabs v) DBL_TRUE_MIN then Some 0
  else Some v.

(** [np.exp] and [**] on [np.float64], with their overflow and underflow. *)
Definition np_exp (a : float) : float :=
  match a with
  | Some x => np_round (exp x)
  | None => None
  end.

Definition np_pow (a b : float) : float :=
  match f_pow a b with
  | Some v => np_round v
  | None => None
  end.

Declare Scope float_scope.
Delimit Scope float_scope with fl.
Bind Scope float_scope with float.
Notation "a + b" := (f_add a b) : float_scope.
Notation "a - b" := (f_sub a b) : float_scope.
Notation "a * b" := (f_mul a b) : float_scope.
Notation "a / b" := (f_div a b) : float_scope.
Notation "a ** b" := (f_pow a b) (at level 30, right associativity) : float_scope.

(** ** Python values passed as time arguments

    The time arguments of the source are probed with [isinstance] and
    [type]: the model keeps the types apart.  [PyNone] stands for a value
    that is neither a number nor a string; [bool], which Python counts among
    the integers, is left out. *)

Inductive pyobj : Type :=
| PyInt (z : Z)
| PyFloat (x : R)
| PyStr (s : string)
| PyNone.

Inductive pytype : Set := t_int | t_float | t_str | t_NoneType.

Definition type (v : pyobj) : pytype :=
  match v with
  | PyInt _ => t_int
  | PyFloat _ => t_float
  | PyStr _ => t_str
  | PyNone => t_NoneType
  end.

Definition pytype_eqb (a b : pytype) : bool :=
  match a, b with
  | t_int, t_int | t_float, t_float | t_str, t_str
  | t_NoneType, t_NoneType => true
  | _, _ => false
  end.

(** The value of an [int] or a [float]. *)
Definition number (v : pyobj) : option R :=
  match v with
  | PyInt z => Some (IZR z)
  | PyFloat x => Some x
  | _ => None
  end.

(** ** Calendar dates: [datetime.date] *)

Open Scope Z_scope.

Definition date : Set := Z.

Definition MINORDINAL : Z := 1.
Definition MAXORDINAL : Z := 3652059.

Definition is_leap (y : Z) : bool :=
  (y mod 4 =? 0) && (negb (y mod 100 =? 0) || (y mod 400 =? 0)).

Definition days_in_month (y m : Z) : Z :=
  if m =? 2 then (if is_leap y then 29 else 28)
  else if (m =? 4) || (m =? 6) || (m =? 9) || (m =? 11) then 30
  else 31.

Definition days_before_year (y : Z) : Z :=
  let p := y - 1 in p * 365 + p / 4 - p / 100 + p / 400.

(** The table [_DAYS_BEFORE_MONTH] of [datetime]. *)
Definition DAYS_BEFORE_MONTH (m : Z) : Z :=
  if m =? 1 then 0 else if m =? 2 then 31 else if m =? 3 then 59
  else if m =? 4 then 90 else if m =? 5 then 120 else if m =? 6 then 151
  else if m =? 7 then 181 else if m =? 8 then 212 else if m =? 9 then 243
  else if m =? 10 then 273 else if m =? 11 then 304 else 334.

Definition days_before_month (y m : Z) : Z :=
  DAYS_BEFORE_MONTH m + (if (2 <? m) && is_leap y then 1 else 0).

Definition ymd2ord (y m d : Z) : Z :=
  days_before_year y + days_before_month y m + d.

Definition digit (c : ascii) : option Z :=
  let n := Z.of_N (N_of_ascii c) in
  if (48 <=? n) && (n <=? 57) then Some (n - 48) else None.

(** The field [%m] of [strptime]: [1[0-2]|0[1-9]|[1-9]]. *)
Definition read_month (a : ascii) (b : option ascii) : option Z :=
  match digit a, b with
  | Some x, None => if 1 <=? x then Some x else None
  | Some x, Some b' =>
      match digit b' with
      | Some y =>
          let m := 10 * x + y in
          if (1 <=? m) && (m <=? 12) then Some m else None
      | None => None
      end
  | None, _ => None
  end.

(** The field [%d] of [strptime]: [3[01]|[12]\d|0[1-9]|[1-9]| [1-9]]. *)
Definition read_day (a : ascii) (b : option ascii) : option Z :=
  match b with
  | None =>
      match digit a with
      | Some x => if 1 <=? x then Some x else None
      | None => None
      end
  | Some b' =>
      match digit b' with
      | Some y =>
          if Ascii.eqb a " "%char then (if 1 <=? y then Some y else None)
          else
            match digit a with
            | Some x =>
                let d := 10 * x + y in
                if (1 <=? d) && (d <=? 31) then Some d else None
            | None => None
            end
      | None => None
      end
  end.

Definition read_year (a b c d : ascii) : option Z :=
  match digit a, digit b, digit c, digit d with
  | Some x, Some y, Some z, Some w => Some (1000 * x + 100 * y + 10 * z + w)
  | _, _, _, _ => None
  end.

Definition dash : ascii := "-"%char.

(** The month and what follows its dash. *)
Definition split_month (rest : string) : option (Z * string) :=
  match rest with
  | String m1 (String h2 tl) =>
      if Ascii.eqb h2 dash
      then option_map (fun m => (m, tl)) (read_month m1 None)
      else
        match tl with
        | String h3 tl' =>
            if Ascii.eqb h3 dash
            then option_map (fun m => (m, tl')) (read_month m1 (Some h2))
            else None
        | EmptyString => None
        end
  | _ => None
  end.

(** The day, which ends the string. *)
Definition split_day (s : string) : option Z :=
  match s with
  | String d1 EmptyString => read_day d1 None
  | String d1 (String d2 EmptyString) => read_day d1 (Some d2)
  | _ => None
  end.

(** Splits [YYYY-M-D] into its three fields; the whole string must match. *)
Definition split_date (s : string) : option (Z * Z * Z) :=
  match s with
  | String y1 (String y2 (String y3 (String y4 (String h1 rest)))) =>
      if Ascii.eqb h1 dash then
        match read_year y1 y2 y3 y4 with
        | Some y =>
            match split_month rest with
            | Some (m, tl) => option_map (fun d => (y, m, d)) (split_day tl)
            | None => None
            end
        | None => None
        end
      else None
  | _ => None
  end.

(** [datetime.datetime.strptime(s, '%Y-%m-%d').date()]: [ValueError] when the
    string does not match the format or names no day of the calendar. *)
Definition strptime (s : string) : outcome date :=
  match split_date s with
  | Some (y, m, d) =>
      if (1 <=? y) && (d <=? days_in_month y m)
      then Ok (ymd2ord y m d)
      else Raise ValueError
  | None => Raise ValueError
  end.

(** [timedelta(days=x).days] for a float [x]: the duration is rounded to a
    whole number of microseconds, half to even, and split with floor
    division. *)
Definition round_half_even (x : R) : Z :=
  let n := Zfloor x in
  if R_ltb (x - IZR n) (1 / 2)%R then n
  else if R_ltb (1 / 2)%R (x - IZR n) then n + 1
  else if Z.even n then n else n + 1.

Definition US_PER_DAY : Z := 86400000000.

Definition timedelta_days (v : pyobj) : outcome Z :=
  match v with
  | PyInt z => Ok z
  | PyFloat x => Ok (round_half_even (x * IZR US_PER_DAY)%R / US_PER_DAY)
  | _ => Raise TypeError
  end.

(** [d + timedelta(days=v)]: the duration must hold at most 999999999 days
    and the sum must be a date of the years 1 to 9999. *)
Definition date_add_days (d : date) (v : pyobj) : outcome date :=
  n <- timedelta_days v ;;
  if (Z.abs n <=? 999999999) && (MINORDINAL <=? d + n) && (d + n <=? MAXORDINAL)
  then Ok (d + n)
  else Raise OverflowError.

(** ** numpy: element-wise arithmetic and [np.interp] *)

Open Scope R_scope.

(** [np.interp(x, xp, fp)] for a scalar [x], as documented for increasing
    [xp]: the value at or before the first point is [fp[0]], at or after the
    last point [fp[-1]], at a sample point the sample, and between two
    points the chord.  An empty [xp], or an [fp] of another length, raises
    [ValueError]. *)
Fixpoint interp_from (x : R) (xp : list R) (fp : list float) : float :=
  match xp, fp with
  | x0 :: ((x1 :: _) as xp'), f0 :: ((f1 :: _) as fp') =>
      if R_ltb x x1 then
        if R_eqb x x0 then f0
        else ((f1 - f0) / fin (x1 - x0) * fin (x - x0) + f0)%fl
      else interp_from x xp' fp'
  | [_], [f0] => f0
  | _, _ => None
  end.

Definition np_interp (x : R) (xp : list R) (fp : list float) : outcome float :=
  if negb (List.length xp =? List.length fp)%nat then Raise ValueError
  else
    match xp, fp with
    | x0 :: _, f0 :: _ =>
        if R_ltb x x0 then Ok f0 else Ok (interp_from x xp fp)
    | _, _ => Raise ValueError
    end.

(** Element-wise operation on two arrays of one length. *)
Definition map2 {A B C : Type} (op : A -> B -> C) (l : list A) (m : list B)
  : list C :=
  map (fun p => op (fst p) (snd p)) (combine l m).

(** ** class ZCB_curve *)

Definition DAYS_IN_YEAR : R := 365.

Module ZCB_curve.

Record obj : Type := mk {
  t : date;
  T_s : list R;
  r_s : list float;
  r_s_type : string;
  compounding : R;
  dcf : list float
}.

(** The two conversions of [__init__], for one spine point. *)
Definition dcf_of_yield (f T r : R) : float :=
  if negb (R_eqb f 0)
  then (fin 1 / (fin (1 + r * f / 100) ** fin (T / f)))%fl
  else f_exp (fin (- r * T / 100)).

Definition yield_of_dcf (f T d : R) : float :=
  if negb (R_eqb f 0)
  then (((fin 1 / fin d) ** (fin f / fin T) - fin 1) / fin f)%fl
  else (f_log (fin 1 / fin d) / fin T)%fl.

(** [__init__].  After the second assertion [r_s_type] is one of the two
    kinds, and the last [else] of the source is never taken. *)
Definition init (t : string) (T_s r_s : list R) (r_s_type : string)
    (compounding : R) : outcome obj :=
  assert (List.length T_s =? List.length r_s)%nat ;;;
  assert (String.eqb r_s_type "yield" || String.eqb r_s_type "discount factor") ;;;
  t0 <- strptime t ;;
  if String.eqb r_s_type "yield" then
    Ok (mk t0 T_s (map fin r_s) r_s_type compounding
          (map2 (dcf_of_yield compounding) T_s r_s))
  else
    Ok (mk t0 T_s (map2 (yield_of_dcf compounding) T_s r_s) "yield"
          compounding (map fin r_s)).

(** [get_curve]: the interpolator, or Python's [None] for a method that is
    not implemented. *)
Definition get_curve (self : obj) (interpo which : string)
  : outcome (option (R -> outcome float)) :=
  assert (String.eqb which "yield" || String.eqb which "discount factor") ;;;
  if String.eqb interpo "linear" then
    if String.eqb which "yield"
    then Ok (Some (fun x => np_interp x (T_s self) (r_s self)))
    else Ok (Some (fun x => np_interp x (T_s self) (dcf self)))
  else Ok None.

(** Calling the object that [get_curve] returned. *)
Definition call (curve : option (R -> outcome float)) (x : R) : outcome float :=
  match curve with
  | Some g => g x
  | None => Raise TypeError
  end.

(** The first half of the "type manipulation" of [get_discount_factor] and
    [get_forward_rate]: the year offset of [t], and [tdt] when it was
    bound. *)
Definition time_of_t (self : obj) (t : pyobj) : outcome (R * option date) :=
  match t with
  | PyStr s =>
      tdt <- strptime s ;;
      assert (ZCB_curve.t self <=? tdt)%Z ;;;
      Ok (IZR (tdt - ZCB_curve.t self) / DAYS_IN_YEAR, Some tdt)
  | PyInt z => assert (R_leb 0 (IZR z)) ;;; Ok (IZR z, None)
  | PyFloat x => assert (R_leb 0 x) ;;; Ok (x, None)
  | PyNone => Raise TypeError
  end.

(** The second half: the year offset of [T]. *)
Definition time_of_T (self : obj) (t : R) (tdt : option date) (T : pyobj)
  : outcome R :=
  match T with
  | PyStr s =>
      Tdt <- strptime s ;;
      match tdt with
      | Some d =>
          assert (d <=? Tdt)%Z ;;;
          Ok (IZR (Tdt - ZCB_curve.t self) / DAYS_IN_YEAR)
      | None => Raise UnboundLocalError
      end
  | PyInt z => assert (R_ltb t (IZR z)) ;;; Ok (IZR z)
  | PyFloat x => assert (R_ltb t x) ;;; Ok x
  | PyNone => Raise TypeError
  end.

Definition get_discount_factor (self : obj) (t T : pyobj) (interpo : string)
  : outcome float :=
  p <- time_of_t self t ;;
  T' <- time_of_T self (fst p) (snd p) T ;;
  curve <- get_curve self interpo "discount factor" ;;
  a <- call curve T' ;;
  b <- call curve (fst p) ;;
  Ok (a / b)%fl.

(** The yields that [curve] returns are in percent and enter the powers and
    the exponential as they are: [np_pow] and [np_exp] keep track of the
    range of the doubles.  [compounding / (T - t)] divides two Python
    floats, and raises when [T = t]. *)
Definition get_forward_rate (self : obj) (t T : pyobj) (interpo : string)
    (compounding : R) : outcome float :=
  p <- time_of_t self t ;;
  T' <- time_of_T self (fst p) (snd p) T ;;
  let t' := fst p in
  curve <- get_curve self interpo "yield" ;;
  if negb (R_eqb compounding 0) then
    yT <- call curve T' ;;
    yt <- call curve t' ;;
    (if R_eqb (T' - t') 0 then Raise ZeroDivisionError else Ok tt) ;;;
    Ok ((np_pow
           (np_pow (fin 1 + fin compounding * yT) (fin (T' / compounding))
            / np_pow (fin 1 + fin compounding * yt) (fin (t' / compounding)))
           (fin (compounding / (T' - t'))) - fin 1) / fin compounding)%fl
  else
    yT <- call curve T' ;;
    yt <- call curve t' ;;
    Ok (f_log (np_exp (yT * fin T' - yt * fin t')) / fin (T' - t'))%fl.

End ZCB_curve.

(** ** class FRA *)

Module FRA.

Record obj : Type := mk {
  t : string;
  tau : R;
  N : R;
  ZCB_init : ZCB_curve.obj;
  compounding : R;
  dtt : date;
  dtT : date;
  dtS : date;
  T : R;
  S : R;
  K : float
}.

(** [strptime] applied to an argument that must be a [str]. *)
Definition strptime_obj (v : pyobj) : outcome date :=
  match v with
  | PyStr s => strptime s
  | _ => Raise TypeError
  end.

(** "Both the numerical version and datetime version of T and S", and
    [tau]: the five assignments of either branch of [__init__]. *)
Definition times (dtt : date) (T S : pyobj) (tau : R)
  : outcome (date * date * R * R * R) :=
  if pytype_eqb (type T) t_str then
    dtT <- strptime_obj T ;;
    dtS <- strptime_obj S ;;
    Ok (dtT, dtS,
        IZR (dtT - dtt) / DAYS_IN_YEAR,
        IZR (dtS - dtt) / DAYS_IN_YEAR,
        IZR (dtS - dtT) / DAYS_IN_YEAR)
  else
    match number T with
    | Some Tn =>
        dtT <- date_add_days dtt T ;;
        dtS <- date_add_days dtt S ;;
        match number S with
        | Some Sn =>
            assert (R_eqb tau ((Sn - Tn) / 365)) ;;;
            Ok (dtT, dtS, Tn, Sn, tau)
        | None => Raise TypeError
        end
    | None => Raise TypeError
    end.

(** The simple-interest forward rate of [__init__] and [get_value]. *)
Definition simple_forward (cur : option (R -> outcome float)) (x y tau : R)
  : outcome float :=
  a <- ZCB_curve.call cur (x / DAYS_IN_YEAR) ;;
  b <- ZCB_curve.call cur (y / DAYS_IN_YEAR) ;;
  Ok ((a / b - fin 1) / fin tau)%fl.

Definition init (t : string) (T S : pyobj) (tau N : R)
    (ZCB_init : ZCB_curve.obj) (compounding : R) : outcome obj :=
  assert (pytype_eqb (type T) (type S)) ;;;
  dtt <- strptime t ;;
  q <- times dtt T S tau ;;
  let '(dtT, dtS, Tn, Sn, tau') := q in
  assert (dtT <? dtS)%Z ;;;
  assert (dtt =? ZCB_curve.t ZCB_init)%Z ;;;
  ZCB_cur <- ZCB_curve.get_curve ZCB_init "linear" "discount factor" ;;
  ZCB_curve.call ZCB_cur (Tn / DAYS_IN_YEAR) ;;;
  ZCB_curve.call ZCB_cur (Sn / DAYS_IN_YEAR) ;;;
  K <- simple_forward ZCB_cur Tn Sn tau' ;;
  Ok (mk t tau' N ZCB_init compounding dtt dtT dtS Tn Sn K).

Definition get_price (self : obj) : float := K self.

Definition set_price (self : obj) (K : float) : obj :=
  mk (t self) (tau self) (N self) (ZCB_init self) (compounding self)
     (dtt self) (dtT self) (dtS self) (T self) (S self) K.

(** [N * tau * (r_t_TS - K)], the last two lines of either branch of
    [get_value]. *)
Definition value_at (self : obj) (cur : option (R -> outcome float)) (t : R)
  : outcome float :=
  r_t_TS <- simple_forward cur (T self - t) (S self - t) (tau self) ;;
  Ok (fin (N self * tau self) * (r_t_TS - K self))%fl.

(** [FRA.DAYS_IN_YEAR * t] for a number [t]. *)
Definition days_of (t : pyobj) : pyobj :=
  match t with
  | PyInt z => PyInt (365 * z)
  | PyFloat x => PyFloat (365 * x)
  | v => v
  end.

Definition get_value (self : obj) (t : pyobj) (ZCB : ZCB_curve.obj)
  : outcome float :=
  ZCB_cur_t <- ZCB_curve.get_curve ZCB "linear" "discount factor" ;;
  match number t with
  | Some t' =>
      assert (R_leb t' (T self)) ;;;
      date_add_days (dtt self) (days_of t) ;;;
      value_at self ZCB_cur_t t'
  | None =>
      match t with
      | PyStr s =>
          d <- strptime s ;;
          let t' := IZR (d - dtt self) / DAYS_IN_YEAR in
          assert ((dtt self <=? d)%Z && (d <=? dtT self)%Z) ;;;
          value_at self ZCB_cur_t t'
      | _ => Raise TypeError
      end
  end.

End FRA.

(** * The formulas of the specification, and sample curves and agreements *)

(** ** Formulas *)

(** The discount factor of a yield of [r] percent at maturity [T], as the
    specification writes it for periodic and for continuous compounding. *)
Definition spec_DF_periodic (r f T : R) : float :=
  (fin (1 + r * f / 100) ** fin (- (T / f)))%fl.

Definition spec_DF_continuous (r T : R) : float :=
  fin (exp (- (r * T / 100))).

(** The closed form of the continuous forward rate, on the values of the
    yield interpolator at [T] and at [t]. *)
Definition spec_forward_continuous (yT yt : float) (T t : R) : float :=
  ((yT * fin T - yt * fin t) / fin (T - t))%fl.

(** An exact result that [np_round] keeps: neither overflow nor underflow. *)
Definition in_range (v : R) : Prop := DBL_TRUE_MIN <= Rabs v <= DBL_MAX.

(** The discount-factor interpolator of a curve, as [get_curve] returns it. *)
Definition discount_curve (c : ZCB_curve.obj) : option (R -> outcome float) :=
  Some (fun x => np_interp x (ZCB_curve.T_s c) (ZCB_curve.dcf c)).

(** The round trip of one yield [r] at maturity 1: the curve built from the
    yield, its stored discount factor, the curve built from that discount
    factor, and the yield [r'] the second curve stores. *)
Definition reads_back (f r r' : R) : Prop :=
  exists c1 ds c2,
    ZCB_curve.init "2023-06-01" [1] [r] "yield" f = Ok c1 /\
    ZCB_curve.r_s c1 = [Some r] /\
    ZCB_curve.dcf c1 = map fin ds /\
    ZCB_curve.init "2023-06-01" [1] ds "discount factor" f = Ok c2 /\
    ZCB_curve.r_s c2 = [Some r'].

(** ** Sample curves

    All samples are anchored on 2023-06-01, the day of ordinal 738672. *)

(** The curve of the end-to-end example of the specification: maturities
    0.5 and 1, yields 5 and 5.5 percent, semiannual compounding. *)
Definition spine_T_s : list R := [1 / 2; 1].
Definition spine_r_s : list R := [5; 11 / 2].

Definition spine_curve : ZCB_curve.obj :=
  ZCB_curve.mk 738672%Z spine_T_s (map fin spine_r_s) "yield" (1 / 2)
    (map2 (ZCB_curve.dcf_of_yield (1 / 2)) spine_T_s spine_r_s).

(** Its two discount factors, and its interpolated discount factor at
    183/365. *)
Definition spine_d0 : R := 1 / (1 + 5 * (1 / 2) / 100).
Definition spine_d1 : R :=
  1 / ((1 + 11 / 2 * (1 / 2) / 100) * (1 + 11 / 2 * (1 / 2) / 100)).

Definition spine_mid : R :=
  (spine_d1 - spine_d0) / (1 - 1 / 2) * (183 / 365 - 1 / 2) + spine_d0.

(** A continuously compounded curve through [y(1) = 5] and [y(2) = 6]. *)
Definition two_point_curve : ZCB_curve.obj :=
  ZCB_curve.mk 738672%Z [1; 2] (map fin [5; 6]) "yield" 0
    (map2 (ZCB_curve.dcf_of_yield 0) [1; 2] [5; 6]).

(** A continuously compounded curve through [y(1) = 20] and [y(30) = 25]. *)
Definition steep_curve : ZCB_curve.obj :=
  ZCB_curve.mk 738672%Z [1; 30] (map fin [20; 25]) "yield" 0
    (map2 (ZCB_curve.dcf_of_yield 0) [1; 30] [20; 25]).

(** A curve built from the single discount factor 0. *)
Definition zero_curve : ZCB_curve.obj :=
  ZCB_curve.mk 738672%Z [1] (map2 (ZCB_curve.yield_of_dcf 0) [1] [0]) "yield" 0
    (map fin [0]).

(** ** Sample agreements

    The agreement of the end-to-end example: inception 2023-06-01, maturity
    2023-09-01 (day 92), settlement 2023-12-01 (day 183), notional 1000000,
    on [spine_curve]; as [__init__] builds it from the two dates, and from
    the two day offsets. *)
Definition fra_dates : FRA.obj :=
  FRA.mk "2023-06-01" (91 / 365) 1000000 spine_curve (1 / 2)
    738672%Z (738672 + 92)%Z (738672 + 183)%Z (92 / 365) (183 / 365) (Some 0).

Definition fra_days : FRA.obj :=
  FRA.mk "2023-06-01" (91 / 365) 1000000 spine_curve (1 / 2)
    738672%Z (738672 + 92)%Z (738672 + 183)%Z 92 183
    (Some ((spine_d0 / spine_mid - 1) / (91 / 365))).

(** An agreement that matured five days before its inception and settled
    two days before it: [__init__] checks [T < S] only. *)
Definition fra_past : FRA.obj :=
  FRA.mk "2023-06-01" (3 / 365) 1000000 spine_curve (1 / 2)
    738672%Z (738672 - 5)%Z (738672 - 2)%Z (-5) (-2) (Some 0).

(** The agreement of day offsets 92 and 183 on [zero_curve]: its fair rate
    is not finite. *)
Definition fra_nan : FRA.obj :=
  FRA.mk "2023-06-01" (91 / 365) 1000000 zero_curve (1 / 2)
    738672%Z (738672 + 92)%Z (738672 + 183)%Z 92 183 None.

(** ** Interpolation *)

(** The values a representation selects in [get_curve]: [r_s] for ['yield'],
    [dcf] otherwise. *)
Definition stored (c : ZCB_curve.obj) (which : string) : list float :=
  if String.eqb which "yield" then ZCB_curve.r_s c else ZCB_curve.dcf c.

(** Maturities in strictly increasing order: what the source leaves to its
    caller, and what [np.interp] asks of its sample points. *)
Definition ascending (xp : list R) : Prop := StronglySorted Rlt xp.

(** The chord through [(x0, f0)] and [(x1, f1)], at [x]. *)
Definition chord (x0 x1 f0 f1 x : R) : R :=
  (f1 - f0) / (x1 - x0) * (x - x0) + f0.

(** ** More sample curves *)

(** A curve built from the discount factors 0.95 and 0.9 at maturities 1
    and 2, semiannual compounding. *)
Definition df_curve : ZCB_curve.obj :=
  ZCB_curve.mk 738672%Z [1; 2]
    (map2 (ZCB_curve.yield_of_dcf (1 / 2)) [1; 2] [19 / 20; 9 / 10]) "yield"
    (1 / 2) (map fin [19 / 20; 9 / 10]).

(** A curve without spine points. *)
Definition empty_curve : ZCB_curve.obj :=
  ZCB_curve.mk 738672%Z [] (map fin []) "yield" (1 / 2)
    (map2 (ZCB_curve.dcf_of_yield (1 / 2)) [] []).

(** * Properties *)

Arguments strptime : simpl never.
Arguments np_interp : simpl never.

(** ** Parsing dates *)

Example strptime_20230601 : strptime "2023-06-01" = Ok 738672%Z.
Proof. reflexivity. Qed.

Example strptime_20230901 : strptime "2023-09-01" = Ok (738672 + 92)%Z.
Proof. reflexivity. Qed.

Example strptime_20231201 : strptime "2023-12-01" = Ok (738672 + 183)%Z.
Proof. reflexivity. Qed.

Example strptime_one_digit_fields : strptime "2023-6-1" = Ok 738672%Z.
Proof. reflexivity. Qed.

Example strptime_bad_day : strptime "2023-06-31" = Raise ValueError.
Proof. reflexivity. Qed.

Example strptime_bad_shape : strptime "01/06/2023" = Raise ValueError.
Proof. reflexivity. Qed.

(** ** Deciding comparisons of reals *)

Lemma R_leb_true (x y : R) : x <= y -> R_leb x y = true.
Proof. intro H; unfold R_leb; destruct (Rle_dec x y); [reflexivity | contradiction]. Qed.

Lemma R_leb_false (x y : R) : y < x -> R_leb x y = false.
Proof. intro H; unfold R_leb; destruct (Rle_dec x y); [lra | reflexivity]. Qed.

Lemma R_ltb_true (x y : R) : x < y -> R_ltb x y = true.
Proof. intro H; unfold R_ltb; destruct (Rlt_dec x y); [reflexivity | contradiction]. Qed.

Lemma R_ltb_false (x y : R) : y <= x -> R_ltb x y = false.
Proof. intro H; unfold R_ltb; destruct (Rlt_dec x y); [lra | reflexivity]. Qed.

Lemma R_eqb_true (x y : R) : x = y -> R_eqb x y = true.
Proof. intro H; unfold R_eqb; destruct (Req_dec_T x y); [reflexivity | contradiction]. Qed.

Lemma R_eqb_false (x y : R) : x <> y -> R_eqb x y = false.
Proof. intro H; unfold R_eqb; destruct (Req_dec_T x y); [contradiction | reflexivity]. Qed.

Lemma R_eqb_refl (x : R) : R_eqb x x = true.
Proof. apply R_eqb_true; reflexivity. Qed.

(** Settles every comparison of the goal that [lra] can decide. *)
Ltac decide_R :=
  repeat match goal with
  | |- context [R_ltb ?a ?b] =>
      first [ rewrite (R_ltb_true a b) by lra | rewrite (R_ltb_false a b) by lra ]
  | |- context [R_leb ?a ?b] =>
      first [ rewrite (R_leb_true a b) by lra | rewrite (R_leb_false a b) by lra ]
  | |- context [R_eqb ?a ?b] =>
      first [ rewrite (R_eqb_true a b) by lra | rewrite (R_eqb_false a b) by lra ]
  end.

(** ** Powers *)

Lemma Rpower_pos (x y : R) : 0 < Rpower x y.
Proof. unfold Rpower; apply exp_pos. Qed.

Lemma is_integer_opp (y : R) : is_integer (- y) = is_integer y.
Proof.
  unfold is_integer.
  destruct (Req_dec_T (IZR (Zfloor y)) y) as [E | NE].
  - rewrite (R_eqb_true _ _ E).
    apply R_eqb_true.
    rewrite <- E at 1. rewrite ZfloorNZ, opp_IZR. lra.
  - rewrite (R_eqb_false _ _ NE).
    apply R_eqb_false. intro E.
    apply NE.
    assert (H : y = IZR (- Zfloor (- y))) by (rewrite opp_IZR; lra).
    rewrite H at 1. rewrite ZfloorZ. symmetry; exact H.
Qed.

Lemma Zfloor_opp_integer (y : R) :
  is_integer y = true -> Zfloor (- y) = (- Zfloor y)%Z.
Proof.
  unfold is_integer, R_eqb.
  destruct (Req_dec_T (IZR (Zfloor y)) y) as [E | NE]; [intros _ | discriminate].
  rewrite <- E at 1. apply ZfloorNZ.
Qed.

(** The reciprocal of a power is the power of the opposite exponent, unless
    the base is 0 and the exponent negative (the power is then infinite). *)
Lemma recip_pow_R (x y : R) :
  x <> 0 \/ 0 <= y ->
  (fin 1 / pow_R x y)%fl = pow_R x (- y).
Proof.
  intros Hdom. unfold pow_R.
  destruct (Rlt_dec 0 x) as [Hpos | Hnpos].
  - rewrite (R_ltb_true _ _ Hpos). simpl.
    rewrite R_eqb_false by (apply Rgt_not_eq, Rpower_pos).
    rewrite Rpower_Ropp. f_equal. lra.
  - rewrite (R_ltb_false 0 x) by lra.
    destruct (Req_dec_T x 0) as [Hz | Hnz].
    + rewrite (R_eqb_true _ _ Hz).
      assert (Hy : 0 <= y) by (destruct Hdom; [contradiction | assumption]).
      destruct (Req_dec_T y 0) as [Hy0 | Hy0].
      * subst y. decide_R. simpl. decide_R. f_equal. lra.
      * decide_R. simpl. decide_R. reflexivity.
    + rewrite (R_eqb_false _ _ Hnz).
      rewrite is_integer_opp.
      destruct (is_integer y) eqn:Hint; [| reflexivity].
      rewrite (Zfloor_opp_integer _ Hint). simpl.
      rewrite R_eqb_false by (apply powerRZ_NOR; exact Hnz).
      f_equal. rewrite powerRZ_neg'. lra.
Qed.

(** ** Arrays *)

Lemma nth_error_map2 {A B C : Type} (op : A -> B -> C) (l : list A) (m : list B)
    (i : nat) (a : A) (b : B) :
  nth_error l i = Some a -> nth_error m i = Some b ->
  nth_error (map2 op l m) i = Some (op a b).
Proof.
  revert m i. induction l as [| a0 l IH]; intros [| b0 m] [| i]; simpl;
    try discriminate.
  - intros [= ->] [= ->]. reflexivity.
  - intros Ha Hb. apply (IH m i Ha Hb).
Qed.

(** ** Construction of a curve *)

(** What [__init__] returns, when it returns. *)
Lemma init_inv (t : string) (T_s r_s : list R) (kind : string) (f : R)
    (c : ZCB_curve.obj) :
  ZCB_curve.init t T_s r_s kind f = Ok c ->
  List.length T_s = List.length r_s /\
  exists t0, strptime t = Ok t0 /\
    ((kind = "yield"%string /\
      c = ZCB_curve.mk t0 T_s (map fin r_s) "yield" f
            (map2 (ZCB_curve.dcf_of_yield f) T_s r_s)) \/
     (kind = "discount factor"%string /\
      c = ZCB_curve.mk t0 T_s (map2 (ZCB_curve.yield_of_dcf f) T_s r_s) "yield"
            f (map fin r_s))).
Proof.
  unfold ZCB_curve.init, assert.
  destruct (Nat.eqb_spec (List.length T_s) (List.length r_s)) as [Hlen | ];
    [| discriminate].
  destruct (String.eqb_spec kind "yield") as [Hy | Hy];
    destruct (String.eqb_spec kind "discount factor") as [Hd | Hd]; simpl;
    try discriminate;
    destruct (strptime t) as [t0 |]; simpl; try discriminate;
    intros [= <-]; (split; [exact Hlen |]); exists t0; (split; [reflexivity |]);
    [left | left | right]; split; try assumption; try reflexivity.
  all: subst kind; reflexivity.
Qed.

(** [__init__] returns whenever its three checks pass. *)
Lemma init_yield (t : string) (T_s r_s : list R) (f : R) (t0 : date) :
  List.length T_s = List.length r_s -> strptime t = Ok t0 ->
  ZCB_curve.init t T_s r_s "yield" f =
  Ok (ZCB_curve.mk t0 T_s (map fin r_s) "yield" f
        (map2 (ZCB_curve.dcf_of_yield f) T_s r_s)).
Proof.
  intros Hlen Ht. unfold ZCB_curve.init.
  rewrite Hlen, Nat.eqb_refl, Ht. reflexivity.
Qed.

Lemma init_discount_factor (t : string) (T_s r_s : list R) (f : R) (t0 : date) :
  List.length T_s = List.length r_s -> strptime t = Ok t0 ->
  ZCB_curve.init t T_s r_s "discount factor" f =
  Ok (ZCB_curve.mk t0 T_s (map2 (ZCB_curve.yield_of_dcf f) T_s r_s) "yield" f
        (map fin r_s)).
Proof.
  intros Hlen Ht. unfold ZCB_curve.init.
  rewrite Hlen, Nat.eqb_refl, Ht. reflexivity.
Qed.

Lemma spec_DF_periodic_pos (r f T : R) :
  0 < 1 + r * f / 100 ->
  spec_DF_periodic r f T = Some (Rpower (1 + r * f / 100) (- (T / f))).
Proof.
  intro H. unfold spec_DF_periodic. simpl. unfold pow_R.
  rewrite (R_ltb_true _ _ H). reflexivity.
Qed.

Lemma dcf_of_yield_periodic (f T r : R) :
  f <> 0 -> 1 + r * f / 100 <> 0 \/ 0 <= T / f ->
  ZCB_curve.dcf_of_yield f T r = spec_DF_periodic r f T.
Proof.
  intros Hf Hdom. unfold ZCB_curve.dcf_of_yield, spec_DF_periodic.
  rewrite (R_eqb_false _ _ Hf). simpl. apply recip_pow_R. exact Hdom.
Qed.

Lemma dcf_of_yield_continuous (T r : R) :
  ZCB_curve.dcf_of_yield 0 T r = spec_DF_continuous r T.
Proof.
  unfold ZCB_curve.dcf_of_yield, spec_DF_continuous.
  rewrite R_eqb_refl. simpl. unfold fin. do 2 f_equal. lra.
Qed.

Example spine_curve_init :
  ZCB_curve.init "2023-06-01" spine_T_s spine_r_s "yield" (1 / 2) = Ok spine_curve.
Proof. apply init_yield; reflexivity. Qed.

(** C3. A curve built from yields [r_s] (in percent) at maturities [T_s]
    stores, at every spine point, the discount factor
    [(1 + r*f/100)^(-T/f)] when the compounding frequency [f] is not 0, and
    [exp(-r*T/100)] when it is 0.  (The power is taken where it exists: the
    base is not 0, or the exponent [T/f] is not negative.) *)
Theorem curve_from_yields_stores_discount_factors
    (t : string) (T_s r_s : list R) (f : R) (c : ZCB_curve.obj)
    (i : nat) (T r : R) :
  ZCB_curve.init t T_s r_s "yield" f = Ok c ->
  nth_error T_s i = Some T ->
  nth_error r_s i = Some r ->
  (f <> 0 -> 1 + r * f / 100 <> 0 \/ 0 <= T / f ->
   nth_error (ZCB_curve.dcf c) i = Some (spec_DF_periodic r f T)) /\
  (f = 0 -> nth_error (ZCB_curve.dcf c) i = Some (spec_DF_continuous r T)).
Proof.
  intros Hinit HT Hr.
  destruct (init_inv _ _ _ _ _ _ Hinit) as (_ & t0 & _ & [[_ ->] | [Hk _]]);
    [| discriminate Hk].
  simpl. rewrite (nth_error_map2 _ _ _ _ _ _ HT Hr).
  split.
  - intros Hf Hdom. f_equal. apply dcf_of_yield_periodic; assumption.
  - intros ->. f_equal. apply dcf_of_yield_continuous.
Qed.

(** C3 at the second spine point of the example curve. *)
Lemma curve_from_yields_stores_discount_factors_witness :
  nth_error (ZCB_curve.dcf spine_curve) 1 =
  Some (Some (Rpower (1 + 11 / 2 * (1 / 2) / 100) (- (1 / (1 / 2))))).
Proof.
  rewrite <- spec_DF_periodic_pos by lra.
  apply (proj1 (curve_from_yields_stores_discount_factors
                  "2023-06-01" spine_T_s spine_r_s (1 / 2) spine_curve 1 1 (11 / 2)
                  spine_curve_init eq_refl eq_refl)).
  - lra.
  - left. lra.
Defined.

(** ** From yields to discount factors and back *)

(** One spine point: the yield read back from the discount factor of a yield
    of [r] percent is [r / 100], a rate per unit, for either compounding. *)
Lemma yield_of_dcf_of_yield (f T r : R) :
  T <> 0 -> (f <> 0 -> 0 < 1 + r * f / 100) ->
  exists d, ZCB_curve.dcf_of_yield f T r = Some d /\
            ZCB_curve.yield_of_dcf f T d = Some (r / 100).
Proof.
  intros HT Hbase.
  unfold ZCB_curve.dcf_of_yield, ZCB_curve.yield_of_dcf.
  destruct (Req_dec_T f 0) as [-> | Hf].
  - rewrite R_eqb_refl. simpl.
    exists (exp (- r * T / 100)). split.
    + reflexivity.
    + rewrite R_eqb_false by apply exp_neq_0.
      unfold f_log.
      rewrite R_ltb_true
        by (apply Rdiv_lt_0_compat; [lra | apply exp_pos]).
      simpl. rewrite (R_eqb_false _ _ HT).
      f_equal. unfold Rdiv at 2. rewrite Rmult_1_l, <- exp_Ropp, ln_exp.
      field. exact HT.
  - specialize (Hbase Hf).
    rewrite (R_eqb_false _ _ Hf). simpl. unfold pow_R at 1.
    rewrite (R_ltb_true _ _ Hbase). simpl.
    set (b := 1 + r * f / 100) in *.
    assert (Hp : 0 < Rpower b (T / f)) by apply Rpower_pos.
    rewrite R_eqb_false by lra.
    exists (1 / Rpower b (T / f)). split; [reflexivity |].
    assert (Hd : 1 / Rpower b (T / f) <> 0).
    { apply Rgt_not_eq, Rdiv_lt_0_compat; lra. }
    rewrite (R_eqb_false _ _ Hd), (R_eqb_false _ _ HT). simpl.
    replace (1 / (1 / Rpower b (T / f))) with (Rpower b (T / f))
      by (field; lra).
    unfold pow_R. rewrite (R_ltb_true _ _ Hp).
    rewrite Rpower_mult.
    replace (T / f * (f / T)) with 1 by (field; split; assumption).
    rewrite (Rpower_1 _ Hbase). simpl.
    rewrite (R_eqb_false _ _ Hf). f_equal. unfold b. field. exact Hf.
Qed.

(** A whole curve: feeding the stored discount factors of a curve built from
    yields [r_s] back as ['discount factor'] stores the yields [r_s / 100]. *)
Lemma round_trip_arrays (f : R) (T_s r_s : list R) :
  List.length T_s = List.length r_s ->
  Forall (fun T => T <> 0) T_s ->
  (f <> 0 -> Forall (fun r => 0 < 1 + r * f / 100) r_s) ->
  exists ds,
    map2 (ZCB_curve.dcf_of_yield f) T_s r_s = map fin ds /\
    List.length T_s = List.length ds /\
    map2 (ZCB_curve.yield_of_dcf f) T_s ds = map (fun r => fin (r / 100)) r_s.
Proof.
  revert r_s. induction T_s as [| T T_s IH]; intros [| r r_s] Hlen HT Hb;
    try discriminate.
  - exists []. repeat split.
  - inversion HT as [| ? ? HT0 HTs]; subst.
    destruct (IH r_s) as (ds & Hd & Hl & Hy).
    + simpl in Hlen. congruence.
    + exact HTs.
    + intro Hf. specialize (Hb Hf). inversion Hb; assumption.
    + destruct (yield_of_dcf_of_yield f T r HT0) as (d & Hd0 & Hy0).
      * intro Hf. specialize (Hb Hf). inversion Hb; assumption.
      * exists (d :: ds). unfold map2 in *. simpl.
        rewrite Hd0, Hd, Hy0, Hy, Hl. repeat split.
Qed.

Lemma round_trip_curves (t : string) (T_s r_s : list R) (f : R)
    (c1 : ZCB_curve.obj) :
  ZCB_curve.init t T_s r_s "yield" f = Ok c1 ->
  Forall (fun T => T <> 0) T_s ->
  (f <> 0 -> Forall (fun r => 0 < 1 + r * f / 100) r_s) ->
  exists ds c2,
    ZCB_curve.dcf c1 = map fin ds /\
    ZCB_curve.init t T_s ds "discount factor" f = Ok c2 /\
    ZCB_curve.r_s c2 = map (fun r => fin (r / 100)) r_s.
Proof.
  intros Hinit HT Hb.
  destruct (init_inv _ _ _ _ _ _ Hinit) as (Hlen & t0 & Ht & [[_ ->] | [Hk _]]);
    [| discriminate Hk].
  destruct (round_trip_arrays f T_s r_s Hlen HT Hb) as (ds & Hd & Hl & Hy).
  exists ds. eexists. split; [exact Hd |]. split.
  - apply init_discount_factor; [exact Hl | exact Ht].
  - simpl. exact Hy.
Qed.

Lemma reads_back_per_unit (f r : R) :
  (f <> 0 -> 0 < 1 + r * f / 100) -> reads_back f r (r / 100).
Proof.
  intro Hb.
  assert (Hinit : ZCB_curve.init "2023-06-01" [1] [r] "yield" f =
                  Ok (ZCB_curve.mk 738672%Z [1] (map fin [r]) "yield" f
                        (map2 (ZCB_curve.dcf_of_yield f) [1] [r])))
    by (apply init_yield; reflexivity).
  destruct (round_trip_curves _ _ _ _ _ Hinit) as (ds & c2 & Hd & H2 & Hr).
  - constructor; [lra | constructor].
  - intro Hf. constructor; [exact (Hb Hf) | constructor].
  - eexists. exists ds, c2. split; [exact Hinit |].
    split; [reflexivity |]. split; [exact Hd |]. split; [exact H2 | exact Hr].
Qed.

Lemma map_fin_inj (l m : list R) : map fin l = map fin m -> l = m.
Proof.
  revert m. induction l as [| a l IH]; intros [| b m]; simpl;
    try discriminate; [reflexivity |].
  unfold fin at 1 3. intros [= -> H]. f_equal. apply IH. exact H.
Qed.

(** The round trip is a function of the yield. *)
Lemma reads_back_functional (f r a b : R) :
  reads_back f r a -> reads_back f r b -> a = b.
Proof.
  intros (c1 & ds & c2 & H1 & _ & Hd & H2 & Hr)
         (c1' & ds' & c2' & H1' & _ & Hd' & H2' & Hr').
  rewrite H1 in H1'. injection H1' as <-.
  rewrite Hd in Hd'. apply map_fin_inj in Hd'. subst ds'.
  rewrite H2 in H2'. injection H2' as <-.
  rewrite Hr in Hr'. injection Hr' as ->. reflexivity.
Qed.

(** C1 (the code departs from it).  The round trip does not reproduce the
    yields: a curve built from a yield of 5 percent at maturity 1 has its
    discount factor read back as the yield 5/100, and not as 5, with
    continuous compounding and with the default frequency 1/2 alike. *)
Theorem round_trip_divides_yields_by_100 :
  (reads_back 0 5 (5 / 100) /\ ~ reads_back 0 5 5) /\
  (reads_back (1 / 2) 5 (5 / 100) /\ ~ reads_back (1 / 2) 5 5).
Proof.
  assert (H0 : reads_back 0 5 (5 / 100)) by (apply reads_back_per_unit; lra).
  assert (H2 : reads_back (1 / 2) 5 (5 / 100))
    by (apply reads_back_per_unit; lra).
  split; (split; [assumption |]); intro H.
  - pose proof (reads_back_functional _ _ _ _ H0 H). lra.
  - pose proof (reads_back_functional _ _ _ _ H2 H). lra.
Qed.

(** ** Forward rates *)

(** The range of the doubles: where [np.exp] and [**] keep their exact
    result, and where [np.exp] overflows. *)

Lemma np_round_in_range (v : R) : in_range v -> np_round v = Some v.
Proof.
  intros [H1 H2]. unfold np_round.
  rewrite R_ltb_false by lra. rewrite R_ltb_false by lra. reflexivity.
Qed.

Lemma np_round_overflow (v : R) : DBL_MAX < Rabs v -> np_round v = None.
Proof. intro H. unfold np_round. rewrite (R_ltb_true _ _ H). reflexivity. Qed.

Lemma exp_INR_mult (n : nat) (x : R) : exp (INR n * x) = exp x ^ n.
Proof.
  induction n as [| n IH].
  - simpl. rewrite Rmult_0_l. apply exp_0.
  - rewrite S_INR, Rmult_plus_distr_r, Rmult_1_l, exp_plus, IH. simpl. ring.
Qed.

Lemma exp_le_compat (x y : R) : x <= y -> exp x <= exp y.
Proof.
  intros [H | ->]; [left; apply exp_increasing; exact H | right; reflexivity].
Qed.

(** [e^7 > 2^10], from [e^(1/64) >= 65/64]. *)
Lemma exp_7_lower : 1024 < exp 7.
Proof.
  replace 7 with (INR 448 * (1 / 64)).
  2:{ rewrite INR_IZR_INZ. simpl Z.of_nat. lra. }
  rewrite exp_INR_mult.
  apply Rlt_le_trans with ((65 / 64) ^ 448).
  - assert (H : 1024 * 64 ^ 448 < 65 ^ 448).
    { rewrite !pow_IZR, <- mult_IZR. apply IZR_lt. vm_compute. reflexivity. }
    assert (P : 0 < 64 ^ 448) by (apply pow_lt; lra).
    replace (65 / 64) with (65 * / 64) by lra.
    rewrite Rpow_mult_distr, pow_inv.
    apply Rmult_lt_reg_r with (64 ^ 448); [exact P |].
    rewrite Rmult_assoc, Rinv_l by lra. lra.
  - apply pow_incr. split; [lra |].
    pose proof (exp_ineq1_le (1 / 64)). lra.
Qed.

(** [exp] leaves the doubles from 728 on (from 709.79 on, in fact):
    [e^728 = (e^7)^104 > 2^1040]. *)
Lemma exp_overflow (z : R) : 728 <= z -> DBL_MAX < exp z.
Proof.
  intro H. apply Rlt_le_trans with (exp 728); [| apply exp_le_compat; exact H].
  replace 728 with (INR 104 * 7).
  2:{ rewrite INR_IZR_INZ. simpl Z.of_nat. lra. }
  rewrite exp_INR_mult.
  apply Rlt_le_trans with (1024 ^ 104).
  - unfold DBL_MAX. rewrite pow_IZR. apply IZR_lt. vm_compute. reflexivity.
  - apply pow_incr. pose proof exp_7_lower. lra.
Qed.

Lemma exp_600_upper : exp 600 <= 3 ^ 600.
Proof.
  replace 600 with (INR 600 * 1) at 1.
  2:{ rewrite INR_IZR_INZ. simpl Z.of_nat. lra. }
  rewrite exp_INR_mult. apply pow_incr.
  split; [left; apply exp_pos | apply exp_le_3].
Qed.

Lemma pow_3_600_le_DBL_MAX : 3 ^ 600 <= DBL_MAX.
Proof. unfold DBL_MAX. rewrite pow_IZR. apply IZR_le. vm_compute. discriminate. Qed.

Lemma DBL_TRUE_MIN_le_inv_pow : DBL_TRUE_MIN <= / 3 ^ 600.
Proof.
  unfold DBL_TRUE_MIN. rewrite pow_IZR.
  apply Rinv_le_contravar.
  - apply IZR_lt. vm_compute. reflexivity.
  - apply IZR_le. vm_compute. discriminate.
Qed.

(** [exp] neither overflows nor underflows between -600 and 600. *)
Lemma exp_in_range (z : R) : -600 <= z <= 600 -> in_range (exp z).
Proof.
  intros [H1 H2]. unfold in_range.
  rewrite Rabs_pos_eq by (left; apply exp_pos).
  split.
  - apply Rle_trans with (/ 3 ^ 600); [apply DBL_TRUE_MIN_le_inv_pow |].
    apply Rle_trans with (exp (Ropp 600)); [| apply exp_le_compat; lra].
    rewrite exp_Ropp.
    apply Rinv_le_contravar; [apply exp_pos | apply exp_600_upper].
  - apply Rle_trans with (exp 600); [apply exp_le_compat; exact H2 |].
    apply Rle_trans with (3 ^ 600);
      [apply exp_600_upper | apply pow_3_600_le_DBL_MAX].
Qed.

Lemma f_log_np_exp (z : R) : in_range (exp z) -> f_log (np_exp (fin z)) = fin z.
Proof.
  intro H. unfold np_exp, fin. rewrite (np_round_in_range _ H). simpl.
  rewrite R_ltb_true by apply exp_pos. rewrite ln_exp. reflexivity.
Qed.

Lemma np_exp_overflow (z : R) : 728 <= z -> np_exp (fin z) = None.
Proof.
  intro H. unfold np_exp, fin. apply np_round_overflow.
  rewrite Rabs_pos_eq by (left; apply exp_pos). apply exp_overflow, H.
Qed.

(** A number passes the checks of the "type manipulation" unchanged. *)
Lemma time_of_t_number (c : ZCB_curve.obj) (t : pyobj) (x : R) :
  number t = Some x -> 0 <= x ->
  ZCB_curve.time_of_t c t = Ok (x, None).
Proof.
  intros Ht Hx. destruct t; simpl in Ht; try discriminate;
    injection Ht as <-; simpl; rewrite (R_leb_true _ _ Hx); reflexivity.
Qed.

Lemma time_of_T_number (c : ZCB_curve.obj) (x : R) (d : option date)
    (T : pyobj) (X : R) :
  number T = Some X -> x < X ->
  ZCB_curve.time_of_T c x d T = Ok X.
Proof.
  intros HT Hx. destruct T; simpl in HT; try discriminate;
    injection HT as <-; simpl; rewrite (R_ltb_true _ _ Hx); reflexivity.
Qed.

Example two_point_curve_init :
  ZCB_curve.init "2023-06-01" [1; 2] [5; 6] "yield" 0 = Ok two_point_curve.
Proof. apply init_yield; reflexivity. Qed.

Example steep_curve_init :
  ZCB_curve.init "2023-06-01" [1; 30] [20; 25] "yield" 0 = Ok steep_curve.
Proof. apply init_yield; reflexivity. Qed.

Lemma get_forward_rate_continuous (c : ZCB_curve.obj) (t T : pyobj) (x X : R) :
  number t = Some x -> number T = Some X -> 0 <= x < X ->
  ZCB_curve.get_forward_rate c t T "linear" 0 =
    (yT <- np_interp X (ZCB_curve.T_s c) (ZCB_curve.r_s c) ;;
     yt <- np_interp x (ZCB_curve.T_s c) (ZCB_curve.r_s c) ;;
     Ok (f_log (np_exp (yT * fin X - yt * fin x)) / fin (X - x))%fl).
Proof.
  intros Ht HT [H0 Hlt]. unfold ZCB_curve.get_forward_rate.
  rewrite (time_of_t_number c t x Ht H0). simpl.
  rewrite (time_of_T_number c x None T X HT Hlt). simpl.
  rewrite R_eqb_refl. simpl.
  destruct (np_interp X _ _) as [yT | e]; simpl; [| reflexivity].
  destruct (np_interp x _ _) as [yt | e]; simpl; reflexivity.
Qed.

(** Where the exponential stays in the range of the doubles, the continuous
    forward rate between the numbers [0 <= t < T] is the closed form
    [(y(T)*T - y(t)*t) / (T - t)]. *)
Lemma forward_rate_continuous_in_range
    (c : ZCB_curve.obj) (t T : pyobj) (x X a b : R) :
  number t = Some x -> number T = Some X -> 0 <= x < X ->
  np_interp X (ZCB_curve.T_s c) (ZCB_curve.r_s c) = Ok (Some a) ->
  np_interp x (ZCB_curve.T_s c) (ZCB_curve.r_s c) = Ok (Some b) ->
  in_range (exp (a * X - b * x)) ->
  ZCB_curve.get_forward_rate c t T "linear" 0 =
    Ok (spec_forward_continuous (Some a) (Some b) X x) /\
  spec_forward_continuous (Some a) (Some b) X x =
    Some ((a * X - b * x) / (X - x)).
Proof.
  intros Ht HT Hx Ha Hb Hr.
  assert (E : spec_forward_continuous (Some a) (Some b) X x =
              Some ((a * X - b * x) / (X - x))).
  { unfold spec_forward_continuous. simpl.
    rewrite R_eqb_false by lra. reflexivity. }
  split; [| exact E].
  rewrite (get_forward_rate_continuous c t T x X Ht HT Hx), Ha, Hb, E.
  cbn [bind f_mul f_sub f_lift2 fin].
  change (Some (a * X - b * x)) with (fin (a * X - b * x)).
  rewrite (f_log_np_exp _ Hr). simpl.
  rewrite R_eqb_false by lra. reflexivity.
Qed.

(** The example of the specification: the forward rate between 1 and 2 on
    the curve through [y(1) = 5] and [y(2) = 6] is 7. *)
Example two_point_forward_rate :
  ZCB_curve.get_forward_rate two_point_curve (PyInt 1) (PyInt 2) "linear" 0 =
    Ok (Some 7).
Proof.
  destruct (forward_rate_continuous_in_range two_point_curve (PyInt 1) (PyInt 2)
              1 2 6 5 eq_refl eq_refl) as [E1 E2].
  - lra.
  - unfold np_interp. simpl. decide_R. reflexivity.
  - unfold np_interp. simpl. decide_R. reflexivity.
  - apply exp_in_range. lra.
  - rewrite E1, E2. do 2 f_equal. lra.
Qed.

(** C4 (the code departs from it).  On the continuously compounded curve
    through [y(1) = 20] and [y(30) = 25] the closed form between the times 1
    and 30 is [(25*30 - 20*1) / (30 - 1) = 730/29], and [get_forward_rate]
    returns a value that is not finite: the code takes [np.exp] of
    [25*30 - 20*1 = 730] before it takes [np.log], and [np.exp] overflows
    there.  The example of the claim, the forward rate 7 between 1 and 2 on
    the curve through [y(1) = 5] and [y(2) = 6], holds. *)
Theorem forward_rate_continuous_overflows :
  ZCB_curve.init "2023-06-01" [1; 30] [20; 25] "yield" 0 = Ok steep_curve /\
  (exists y,
     ZCB_curve.get_curve steep_curve "linear" "yield" = Ok (Some y) /\
     y 30 = Ok (Some 25) /\ y 1 = Ok (Some 20) /\
     spec_forward_continuous (Some 25) (Some 20) 30 1 = Some (730 / 29)) /\
  np_exp (fin 25 * fin 30 - fin 20 * fin 1) = None /\
  ZCB_curve.get_forward_rate steep_curve (PyInt 1) (PyInt 30) "linear" 0 =
    Ok None /\
  ZCB_curve.get_forward_rate two_point_curve (PyInt 1) (PyInt 2) "linear" 0 =
    Ok (Some 7).
Proof.
  assert (Y30 : np_interp 30 (ZCB_curve.T_s steep_curve)
                  (ZCB_curve.r_s steep_curve) = Ok (Some 25)).
  { unfold np_interp. simpl. decide_R. reflexivity. }
  assert (Y1 : np_interp 1 (ZCB_curve.T_s steep_curve)
                 (ZCB_curve.r_s steep_curve) = Ok (Some 20)).
  { unfold np_interp. simpl. decide_R. reflexivity. }
  assert (O : np_exp (fin 25 * fin 30 - fin 20 * fin 1) = None).
  { cbn [f_mul f_sub f_lift2 fin].
    change (Some (25 * 30 - 20 * 1)) with (fin (25 * 30 - 20 * 1)).
    apply np_exp_overflow. lra. }
  split; [exact steep_curve_init |].
  split.
  { eexists. split; [reflexivity |].
    split; [exact Y30 |]. split; [exact Y1 |].
    unfold spec_forward_continuous. simpl.
    rewrite R_eqb_false by lra. f_equal. lra. }
  split; [exact O |].
  split; [| exact two_point_forward_rate].
  rewrite (get_forward_rate_continuous steep_curve _ _ 1 30);
    [| reflexivity | reflexivity | lra].
  rewrite Y30, Y1. cbn [bind].
  change (Some 25) with (fin 25). change (Some 20) with (fin 20).
  rewrite O. reflexivity.
Qed.

(** ** Discount factors of the example curve *)

Lemma spine_curve_dcf : ZCB_curve.dcf spine_curve = [Some spine_d0; Some spine_d1].
Proof.
  unfold spine_curve, spine_T_s, spine_r_s, map2, ZCB_curve.dcf_of_yield. simpl.
  decide_R. simpl. unfold pow_R. decide_R. simpl.
  replace (1 / 2 / (1 / 2)) with 1 by lra.
  replace (1 / (1 / 2)) with (1 + 1) by lra.
  rewrite Rpower_plus, !Rpower_1 by lra.
  decide_R. reflexivity.
Qed.

(** The discount-factor interpolator of the example curve before its first
    spine point, and between its two spine points. *)
Lemma spine_interp_left (x : R) :
  x < 1 / 2 ->
  np_interp x spine_T_s
    (map2 (ZCB_curve.dcf_of_yield (1 / 2)) spine_T_s spine_r_s) =
  Ok (Some spine_d0).
Proof.
  intro Hx. change (map2 _ _ _) with (ZCB_curve.dcf spine_curve).
  rewrite spine_curve_dcf. unfold np_interp. simpl. decide_R.
  reflexivity.
Qed.

Lemma spine_interp_mid (x : R) :
  1 / 2 < x < 1 ->
  np_interp x spine_T_s
    (map2 (ZCB_curve.dcf_of_yield (1 / 2)) spine_T_s spine_r_s) =
  Ok (Some ((spine_d1 - spine_d0) / (1 - 1 / 2) * (x - 1 / 2) + spine_d0)).
Proof.
  intro Hx. change (map2 _ _ _) with (ZCB_curve.dcf spine_curve).
  rewrite spine_curve_dcf. unfold np_interp. simpl. decide_R.
  simpl. decide_R. reflexivity.
Qed.

Lemma spine_d0_val : spine_d0 = 40 / 41.
Proof. unfold spine_d0. field. Qed.

Lemma spine_d1_val : spine_d1 = 160000 / 168921.
Proof. unfold spine_d1. field. Qed.

(** ** Checks of [get_discount_factor] *)

Section Checks.

Variable c : ZCB_curve.obj.
Variable interpo : string.

Lemma get_discount_factor_negative_t (t T : pyobj) (x : R) :
  number t = Some x -> x < 0 ->
  ZCB_curve.get_discount_factor c t T interpo = Raise AssertionError.
Proof.
  intros Ht Hx. unfold ZCB_curve.get_discount_factor.
  destruct t; simpl in Ht; try discriminate; injection Ht as <-; simpl;
    rewrite (R_leb_false _ _ Hx); reflexivity.
Qed.

Lemma get_discount_factor_numbers_not_increasing (t T : pyobj) (x X : R) :
  number t = Some x -> number T = Some X -> X <= x ->
  ZCB_curve.get_discount_factor c t T interpo = Raise AssertionError.
Proof.
  intros Ht HT Hx. unfold ZCB_curve.get_discount_factor.
  destruct (Rle_dec 0 x) as [H0 | H0].
  - rewrite (time_of_t_number c t x Ht H0). simpl.
    destruct T; simpl in HT; try discriminate; injection HT as <-; simpl;
      rewrite (R_ltb_false _ _ Hx); reflexivity.
  - destruct t; simpl in Ht; try discriminate; injection Ht as <-; simpl;
      rewrite R_leb_false by lra; reflexivity.
Qed.

Lemma get_discount_factor_dates_checked (s S : string) (d D : date) :
  strptime s = Ok d -> strptime S = Ok D ->
  (d < ZCB_curve.t c \/ D < ZCB_curve.t c \/ D < d)%Z ->
  ZCB_curve.get_discount_factor c (PyStr s) (PyStr S) interpo =
  Raise AssertionError.
Proof.
  intros Hs HS Hd. unfold ZCB_curve.get_discount_factor. simpl.
  rewrite Hs. simpl.
  destruct (Z.leb_spec (ZCB_curve.t c) d) as [H1 | H1]; simpl; [| reflexivity].
  rewrite HS. simpl.
  destruct (Z.leb_spec d D) as [H2 | H2]; simpl; [lia | reflexivity].
Qed.

End Checks.

(** C5 (the code departs from it).  With both times given as the same date,
    [T] is not strictly greater than [t], and [get_discount_factor] returns
    1 where the claim asks for a failure: the date branch asserts
    [tdt <= Tdt] where the number branch asserts [t < T]. *)
Theorem get_discount_factor_accepts_equal_dates :
  ZCB_curve.get_discount_factor spine_curve
    (PyStr "2023-09-01") (PyStr "2023-09-01") "linear" = Ok (Some 1).
Proof.
  unfold ZCB_curve.get_discount_factor. simpl.
  rewrite spine_interp_left by (unfold DAYS_IN_YEAR; lra). simpl.
  rewrite R_eqb_false by (rewrite spine_d0_val; lra).
  do 2 f_equal. rewrite spine_d0_val. lra.
Qed.

(** ** Interpolation methods that are not implemented *)

Lemma get_curve_not_linear (c : ZCB_curve.obj) (interpo which : string) :
  interpo <> "linear"%string ->
  which = "yield"%string \/ which = "discount factor"%string ->
  ZCB_curve.get_curve c interpo which = Ok None.
Proof.
  intros Hi Hw. unfold ZCB_curve.get_curve.
  apply String.eqb_neq in Hi. rewrite Hi.
  destruct Hw as [-> | ->]; reflexivity.
Qed.

(** C9 (the code departs from it).  For a method other than ['linear'],
    [get_curve] returns no interpolator and does not raise, for either
    representation, as the claim says.  [get_discount_factor] does not hand
    that signal on: it calls what [get_curve] returned without testing it,
    so with such a method it raises on every curve and for all arguments,
    and once its time arguments have passed their checks (numbers
    [0 <= t < T]) it raises the [TypeError] of calling [None]. *)
Theorem unsupported_interpolation
    (c : ZCB_curve.obj) (interpo : string) :
  interpo <> "linear"%string ->
  (forall which, which = "yield"%string \/ which = "discount factor"%string ->
     ZCB_curve.get_curve c interpo which = Ok None) /\
  (forall t T, raises (ZCB_curve.get_discount_factor c t T interpo)) /\
  (forall t T x X, number t = Some x -> number T = Some X -> 0 <= x < X ->
     ZCB_curve.get_discount_factor c t T interpo = Raise TypeError).
Proof.
  intro Hi. split; [| split].
  - intros which Hw. apply get_curve_not_linear; assumption.
  - intros t T. unfold ZCB_curve.get_discount_factor.
    destruct (ZCB_curve.time_of_t c t) as [p | e]; simpl;
      [| exists e; reflexivity].
    destruct (ZCB_curve.time_of_T c (fst p) (snd p) T) as [T' | e]; simpl;
      [| exists e; reflexivity].
    rewrite get_curve_not_linear by (auto using eq_refl).
    exists TypeError. reflexivity.
  - intros t T x X Ht HT [H0 Hlt]. unfold ZCB_curve.get_discount_factor.
    rewrite (time_of_t_number c t x Ht H0). simpl.
    rewrite (time_of_T_number c x None T X HT Hlt). simpl.
    rewrite get_curve_not_linear by (auto using eq_refl).
    reflexivity.
Qed.

(** C9 on the example curve, for the method ['cubic'] and the times 0 and
    1. *)
Lemma unsupported_interpolation_witness :
  ZCB_curve.get_curve spine_curve "cubic" "yield" = Ok None /\
  ZCB_curve.get_discount_factor spine_curve (PyInt 0) (PyInt 1) "cubic" =
    Raise TypeError.
Proof.
  assert (H : "cubic"%string <> "linear"%string) by discriminate.
  destruct (unsupported_interpolation spine_curve "cubic" H) as (H1 & _ & H3).
  split.
  - apply H1. left. reflexivity.
  - apply (H3 (PyInt 0) (PyInt 1) 0 1 eq_refl eq_refl). lra.
Defined.

(** The same call evaluated: with the method ['cubic'] and the times 0 and 1
    on the example curve, [get_discount_factor] raises and returns no
    value. *)
Lemma get_discount_factor_cubic_raises :
  "cubic"%string <> "linear"%string /\
  ZCB_curve.get_discount_factor spine_curve (PyInt 0) (PyInt 1) "cubic" =
    Raise TypeError /\
  ~ (exists v, ZCB_curve.get_discount_factor spine_curve (PyInt 0) (PyInt 1) "cubic"
               = Ok v).
Proof.
  assert (E : ZCB_curve.get_discount_factor spine_curve (PyInt 0) (PyInt 1) "cubic"
              = Raise TypeError).
  { unfold ZCB_curve.get_discount_factor. simpl. decide_R. simpl. decide_R.
    reflexivity. }
  split; [discriminate |]. split; [exact E |].
  intros [v Hv]. rewrite E in Hv. discriminate.
Qed.

(** ** A number for [t] and a date for [T] *)

(** C10. With [t] a non-negative number and [T] a date string,
    [get_discount_factor] and [get_forward_rate] raise [UnboundLocalError]:
    the date branch for [T] reads [tdt], which only the date branch for [t]
    binds. *)
Theorem number_then_date_is_unbound
    (c : ZCB_curve.obj) (t : pyobj) (x : R) (s : string) (d : date)
    (interpo : string) (f : R) :
  number t = Some x -> 0 <= x -> strptime s = Ok d ->
  ZCB_curve.get_discount_factor c t (PyStr s) interpo = Raise UnboundLocalError /\
  ZCB_curve.get_forward_rate c t (PyStr s) interpo f = Raise UnboundLocalError.
Proof.
  intros Ht Hx Hs.
  unfold ZCB_curve.get_discount_factor, ZCB_curve.get_forward_rate.
  rewrite (time_of_t_number c t x Ht Hx). simpl.
  rewrite Hs. simpl. split; reflexivity.
Qed.

(** C10 on the example curve, for the time 1/4 and the date 2023-12-01. *)
Lemma number_then_date_is_unbound_witness :
  ZCB_curve.get_discount_factor spine_curve (PyFloat (1 / 4)) (PyStr "2023-12-01")
    "linear" = Raise UnboundLocalError /\
  ZCB_curve.get_forward_rate spine_curve (PyFloat (1 / 4)) (PyStr "2023-12-01")
    "linear" (1 / 2) = Raise UnboundLocalError.
Proof.
  apply (number_then_date_is_unbound spine_curve (PyFloat (1 / 4)) (1 / 4)
           "2023-12-01" (738672 + 183)%Z "linear" (1 / 2) eq_refl).
  - lra.
  - reflexivity.
Defined.

(** ** Dates that [strptime] returns *)

Open Scope Z_scope.

Lemma Some_inj {A : Type} (a b : A) : Some a = Some b -> a = b.
Proof. congruence. Qed.

Lemma digit_range (c : ascii) (x : Z) : digit c = Some x -> 0 <= x <= 9.
Proof.
  unfold digit. cbv zeta.
  set (n := Z.of_N (N_of_ascii c)).
  destruct (Z.leb_spec 48 n); destruct (Z.leb_spec n 57); simpl;
    try discriminate.
  intro E. apply Some_inj in E. subst. lia.
Qed.

Lemma read_year_range (a b c d : ascii) (y : Z) :
  read_year a b c d = Some y -> 0 <= y <= 9999.
Proof.
  unfold read_year.
  destruct (digit a) eqn:Ha; [| discriminate].
  destruct (digit b) eqn:Hb; [| discriminate].
  destruct (digit c) eqn:Hc; [| discriminate].
  destruct (digit d) eqn:Hd; [| discriminate].
  apply digit_range in Ha, Hb, Hc, Hd. intro E. apply Some_inj in E. subst. lia.
Qed.

Lemma read_month_range (a : ascii) (b : option ascii) (m : Z) :
  read_month a b = Some m -> 1 <= m <= 12.
Proof.
  unfold read_month. cbv zeta.
  destruct (digit a) as [x |] eqn:Ha; [| discriminate].
  apply digit_range in Ha.
  destruct b as [b' |].
  - destruct (digit b') as [y |]; [| discriminate].
    destruct (Z.leb_spec 1 (10 * x + y)); destruct (Z.leb_spec (10 * x + y) 12);
      cbn [andb]; try discriminate.
    intro E. apply Some_inj in E. subst. lia.
  - destruct (Z.leb_spec 1 x); [| discriminate].
    intro E. apply Some_inj in E. subst. lia.
Qed.

Lemma read_day_range (a : ascii) (b : option ascii) (d : Z) :
  read_day a b = Some d -> 1 <= d <= 31.
Proof.
  unfold read_day. cbv zeta. destruct b as [b' |].
  - destruct (digit b') as [y |] eqn:Hy; [| discriminate].
    apply digit_range in Hy.
    destruct (Ascii.eqb a " ").
    + destruct (Z.leb_spec 1 y); [| discriminate]. intro E. apply Some_inj in E. subst. lia.
    + destruct (digit a) as [x |]; [| discriminate].
      destruct (Z.leb_spec 1 (10 * x + y)); destruct (Z.leb_spec (10 * x + y) 31);
        cbn [andb]; try discriminate.
      intro E. apply Some_inj in E. subst. lia.
  - destruct (digit a) as [x |] eqn:Ha; [| discriminate].
    apply digit_range in Ha.
    destruct (Z.leb_spec 1 x); [| discriminate]. intro E. apply Some_inj in E. subst. lia.
Qed.

Create HintDb date_fields.

#[local] Hint Resolve read_year_range read_month_range read_day_range
  : date_fields.

(** Splits the goal on every term a [match] of the goal looks at. *)
Ltac case_matches :=
  repeat match goal with
  | |- context [match ?x with _ => _ end] => destruct x eqn:?; try discriminate
  end.

Lemma split_month_range (rest tl : string) (m : Z) :
  split_month rest = Some (m, tl) -> 1 <= m <= 12.
Proof.
  unfold split_month, option_map. case_matches;
    intro E; apply Some_inj in E; injection E as <- _;
    eauto with date_fields.
Qed.

Lemma split_day_range (s : string) (d : Z) :
  split_day s = Some d -> 1 <= d <= 31.
Proof. unfold split_day. case_matches; eauto with date_fields. Qed.

#[local] Hint Resolve split_month_range split_day_range : date_fields.

Lemma split_date_range (s : string) (y m d : Z) :
  split_date s = Some (y, m, d) ->
  0 <= y <= 9999 /\ 1 <= m <= 12 /\ 1 <= d <= 31.
Proof.
  unfold split_date.
  destruct s as [| y1 [| y2 [| y3 [| y4 [| h1 rest]]]]]; try discriminate.
  destruct (Ascii.eqb h1 dash); [| discriminate].
  destruct (read_year y1 y2 y3 y4) as [y' |] eqn:Hy; [| discriminate].
  destruct (split_month rest) as [[m' tl] |] eqn:Hm; [| discriminate].
  destruct (split_day tl) as [d' |] eqn:Hd; [| discriminate].
  simpl. intro E. apply Some_inj in E. injection E as <- <- <-.
  split; [| split]; eauto with date_fields.
Qed.

Lemma days_before_month_days (y m d : Z) :
  1 <= m <= 12 -> 1 <= d <= days_in_month y m ->
  1 <= days_before_month y m + d <= (if is_leap y then 366 else 365).
Proof.
  intros Hm Hd.
  assert (C : m = 1 \/ m = 2 \/ m = 3 \/ m = 4 \/ m = 5 \/ m = 6 \/ m = 7 \/
              m = 8 \/ m = 9 \/ m = 10 \/ m = 11 \/ m = 12) by lia.
  unfold days_before_month, days_in_month, DAYS_BEFORE_MONTH in *.
  repeat (destruct C as [-> | C]); try subst m;
    cbn [Z.eqb Pos.eqb Z.ltb Z.compare Pos.compare Pos.compare_cont andb orb]
      in Hd |- *;
    destruct (is_leap y); lia.
Qed.

Lemma ymd2ord_range (y m d : Z) :
  1 <= y <= 9999 -> 1 <= m <= 12 -> 1 <= d <= days_in_month y m ->
  MINORDINAL <= ymd2ord y m d <= MAXORDINAL.
Proof.
  intros Hy Hm Hd.
  pose proof (days_before_month_days y m d Hm Hd) as H.
  unfold ymd2ord, MINORDINAL, MAXORDINAL.
  destruct (Z.eq_dec y 9999) as [-> | Hne].
  - change (is_leap 9999) with false in H.
    change (days_before_year 9999) with 3651694. lia.
  - unfold days_before_year. cbv zeta.
    destruct (is_leap y); Z.div_mod_to_equations; lia.
Qed.

Lemma strptime_range (s : string) (d : date) :
  strptime s = Ok d -> MINORDINAL <= d <= MAXORDINAL.
Proof.
  unfold strptime.
  destruct (split_date s) as [[[y m] dd] |] eqn:Hs; [| discriminate].
  apply split_date_range in Hs. destruct Hs as (Hy & Hm & Hd).
  destruct (Z.leb_spec 1 y); destruct (Z.leb_spec dd (days_in_month y m));
    simpl; try discriminate.
  intros [= <-]. apply ymd2ord_range; lia.
Qed.

Open Scope R_scope.

(** ** Construction of a forward-rate agreement *)

Lemma get_curve_discount (c : ZCB_curve.obj) :
  ZCB_curve.get_curve c "linear" "discount factor" = Ok (discount_curve c).
Proof. reflexivity. Qed.

(** What [FRA.__init__] returns, when it returns. *)
Lemma FRA_init_inv (t : string) (T S : pyobj) (tau N : R) (c : ZCB_curve.obj)
    (f : R) (fra : FRA.obj) :
  FRA.init t T S tau N c f = Ok fra ->
  type T = type S /\
  strptime t = Ok (FRA.dtt fra) /\
  FRA.times (FRA.dtt fra) T S tau =
    Ok (FRA.dtT fra, FRA.dtS fra, FRA.T fra, FRA.S fra, FRA.tau fra) /\
  (FRA.dtT fra < FRA.dtS fra)%Z /\
  FRA.dtt fra = ZCB_curve.t c /\
  FRA.simple_forward (discount_curve c) (FRA.T fra) (FRA.S fra) (FRA.tau fra) =
    Ok (FRA.K fra) /\
  FRA.ZCB_init fra = c /\ FRA.N fra = N /\ FRA.t fra = t.
Proof.
  unfold FRA.init.
  destruct (pytype_eqb (type T) (type S)) eqn:Hty; simpl; [| discriminate].
  destruct (strptime t) as [dtt |] eqn:Ht; simpl; [| discriminate].
  destruct (FRA.times dtt T S tau) as [[[[[dtT dtS] Tn] Sn] tau'] |] eqn:Hq;
    simpl; [| discriminate].
  destruct (Z.ltb_spec dtT dtS) as [Hlt |]; simpl; [| discriminate].
  destruct (Z.eqb_spec dtt (ZCB_curve.t c)) as [Heq |]; simpl; [| discriminate].
  fold (discount_curve c).
  destruct (np_interp (Tn / DAYS_IN_YEAR) _ _); simpl; [| discriminate].
  destruct (np_interp (Sn / DAYS_IN_YEAR) _ _); simpl; [| discriminate].
  destruct (FRA.simple_forward (discount_curve c) Tn Sn tau') as [K |] eqn:HK;
    simpl; [| discriminate].
  intros [= <-]. simpl.
  split; [destruct T, S; simpl in Hty; try discriminate; reflexivity |].
  repeat split; try assumption; reflexivity.
Qed.

(** C8. A date string for [T] with a number for [S], or the reverse, is
    rejected by the first statement of [FRA.__init__] that can fail, the
    assertion [type(T) == type(S)]: whatever the other arguments are, nothing
    is parsed and no curve is read. *)
Theorem mixed_time_types_rejected
    (t s : string) (tau N : R) (c : ZCB_curve.obj) (f : R) :
  (forall z : Z,
     FRA.init t (PyStr s) (PyInt z) tau N c f = Raise AssertionError /\
     FRA.init t (PyInt z) (PyStr s) tau N c f = Raise AssertionError) /\
  (forall x : R,
     FRA.init t (PyStr s) (PyFloat x) tau N c f = Raise AssertionError /\
     FRA.init t (PyFloat x) (PyStr s) tau N c f = Raise AssertionError).
Proof. split; intro; split; reflexivity. Qed.

(** ** The agreement of the end-to-end example, built in both ways *)

Lemma spine_mid_bounds : 0 < spine_mid < spine_d0.
Proof. unfold spine_mid. rewrite spine_d0_val, spine_d1_val. lra. Qed.

Lemma fra_dates_init :
  FRA.init "2023-06-01" (PyStr "2023-09-01") (PyStr "2023-12-01") (91 / 365)
    1000000 spine_curve (1 / 2) = Ok fra_dates.
Proof.
  unfold FRA.init, FRA.simple_forward. simpl.
  rewrite !spine_interp_left by (unfold DAYS_IN_YEAR; lra). simpl.
  rewrite R_eqb_false by (rewrite spine_d0_val; lra). simpl.
  rewrite R_eqb_false by (unfold DAYS_IN_YEAR; lra).
  unfold fra_dates, DAYS_IN_YEAR. do 3 f_equal.
  rewrite spine_d0_val. lra.
Qed.

Lemma fra_days_init :
  FRA.init "2023-06-01" (PyInt 92) (PyInt 183) (91 / 365)
    1000000 spine_curve (1 / 2) = Ok fra_days.
Proof.
  unfold FRA.init, FRA.times, FRA.simple_forward. simpl.
  decide_R. simpl.
  rewrite !spine_interp_left by (unfold DAYS_IN_YEAR; lra).
  rewrite !spine_interp_mid by (unfold DAYS_IN_YEAR; lra). simpl.
  unfold DAYS_IN_YEAR. fold spine_mid.
  pose proof spine_mid_bounds.
  decide_R. simpl. decide_R. reflexivity.
Qed.

(** C7 (the code departs from it).  Built from the dates 2023-09-01 and
    2023-12-01, the agreement stores [T = 92/365] and [S = 183/365], the
    day offsets divided by [DAYS_IN_YEAR]; built from the day offsets 92
    and 183 of the same two dates it stores [T = 92] and [S = 183]; and
    since both go through [T / DAYS_IN_YEAR] again, the first gets the fair
    rate 0 and the second a positive one. *)
Theorem dates_and_days_store_different_times :
  FRA.init "2023-06-01" (PyStr "2023-09-01") (PyStr "2023-12-01") (91 / 365)
    1000000 spine_curve (1 / 2) = Ok fra_dates /\
  FRA.init "2023-06-01" (PyInt 92) (PyInt 183) (91 / 365)
    1000000 spine_curve (1 / 2) = Ok fra_days /\
  FRA.dtT fra_dates = FRA.dtT fra_days /\
  FRA.dtS fra_dates = FRA.dtS fra_days /\
  FRA.T fra_dates = 92 / 365 /\ FRA.T fra_days = 92 /\
  FRA.S fra_dates = 183 / 365 /\ FRA.S fra_days = 183 /\
  FRA.T fra_dates <> FRA.T fra_days /\
  FRA.S fra_dates <> FRA.S fra_days /\
  FRA.K fra_dates = Some 0 /\
  exists k, FRA.K fra_days = Some k /\ 0 < k.
Proof.
  split; [exact fra_dates_init |]. split; [exact fra_days_init |].
  simpl. repeat (split; [first [reflexivity | lra] |]).
  eexists. split; [reflexivity |].
  pose proof spine_mid_bounds as [Hm Hd].
  apply Rdiv_lt_0_compat; [| lra].
  apply Rlt_0_minus.
  apply (Rmult_lt_reg_r spine_mid); [exact Hm |].
  unfold Rdiv. rewrite Rmult_assoc, Rinv_l by lra. lra.
Qed.

(** ** The valuation window of [get_value] *)

Section Window.

Variable fra : FRA.obj.
Variable c : ZCB_curve.obj.

Lemma get_value_type_error : FRA.get_value fra PyNone c = Raise TypeError.
Proof. reflexivity. Qed.

Lemma get_value_unparsed_string (s : string) :
  strptime s = Raise ValueError ->
  FRA.get_value fra (PyStr s) c = Raise ValueError.
Proof. intro Hs. unfold FRA.get_value. simpl. rewrite Hs. reflexivity. Qed.

Lemma get_value_after_maturity (t : pyobj) (x : R) :
  number t = Some x -> FRA.T fra < x ->
  FRA.get_value fra t c = Raise AssertionError.
Proof.
  intros Ht Hx. unfold FRA.get_value. simpl. rewrite Ht.
  rewrite (R_leb_false _ _ Hx). reflexivity.
Qed.

Lemma get_value_date_outside_window (s : string) (d : date) :
  strptime s = Ok d -> (d < FRA.dtt fra \/ FRA.dtT fra < d)%Z ->
  FRA.get_value fra (PyStr s) c = Raise AssertionError.
Proof.
  intros Hs Hd. unfold FRA.get_value. simpl. rewrite Hs. simpl.
  destruct (Z.leb_spec (FRA.dtt fra) d); destruct (Z.leb_spec d (FRA.dtT fra));
    simpl; try reflexivity.
  lia.
Qed.

End Window.

(** C6 (the code departs from it).  One day before inception, given as the
    number -1, the agreement built from day offsets is valued: the number
    branch of [get_value] asserts [t <= T] only, where the date branch
    asserts [dtt <= t <= dtT] and rejects the day before inception. *)
Theorem get_value_accepts_number_before_inception :
  (exists v, FRA.get_value fra_days (PyInt (-1)) spine_curve = Ok (Some v)) /\
  FRA.get_value fra_days (PyStr "2023-05-31") spine_curve = Raise AssertionError.
Proof.
  split.
  - unfold FRA.get_value, FRA.value_at, FRA.simple_forward. simpl.
    decide_R. simpl.
    rewrite !spine_interp_left by (unfold DAYS_IN_YEAR; lra).
    rewrite !spine_interp_mid by (unfold DAYS_IN_YEAR; lra). simpl.
    rewrite R_eqb_false
      by (rewrite spine_d0_val, spine_d1_val; unfold DAYS_IN_YEAR; lra).
    simpl. decide_R. simpl. eexists. reflexivity.
  - apply (get_value_date_outside_window fra_days spine_curve "2023-05-31"
             (738672 - 1)%Z); [reflexivity | left; simpl; lia].
Qed.

(** ** Valuation at inception *)

Lemma round_half_even_nonneg (y : R) : 0 <= y -> (0 <= round_half_even y)%Z.
Proof.
  intro Hy. unfold round_half_even. cbv zeta.
  assert (Hn : (0 <= Zfloor y)%Z) by (apply Zfloor_lub; exact Hy).
  destruct (R_ltb _ _); [exact Hn |].
  destruct (R_ltb _ _); [lia |].
  destruct (Z.even _); lia.
Qed.

Lemma round_half_even_0 : round_half_even 0 = 0%Z.
Proof.
  unfold round_half_even. cbv zeta. rewrite (ZfloorZ 0).
  rewrite R_ltb_true by lra. reflexivity.
Qed.

Lemma timedelta_days_nonneg (v : pyobj) (x : R) (n : Z) :
  number v = Some x -> 0 <= x -> timedelta_days v = Ok n -> (0 <= n)%Z.
Proof.
  destruct v as [z | y | |]; simpl; try discriminate; intros [= <-] Hx [= <-].
  - apply le_IZR. exact Hx.
  - apply Z.div_pos; [| reflexivity].
    apply round_half_even_nonneg.
    apply Rmult_le_pos; [exact Hx |]. apply IZR_le. discriminate.
Qed.

Lemma date_add_days_inv (d : date) (v : pyobj) (d' : date) :
  date_add_days d v = Ok d' ->
  exists n, timedelta_days v = Ok n /\ d' = (d + n)%Z.
Proof.
  unfold date_add_days.
  destruct (timedelta_days v) as [n |]; simpl; [| discriminate].
  destruct (_ && _); [| discriminate].
  intros [= <-]. exists n. split; reflexivity.
Qed.

(** A maturity that is not before inception as a number is not before it as
    a date. *)
Lemma times_maturity_after_inception (dtt : date) (T S : pyobj) (tau : R)
    (dtT dtS : date) (Tn Sn tau' : R) :
  FRA.times dtt T S tau = Ok (dtT, dtS, Tn, Sn, tau') ->
  0 <= Tn -> (dtt <= dtT)%Z.
Proof.
  unfold FRA.times.
  destruct (pytype_eqb (type T) t_str).
  - destruct (FRA.strptime_obj T) as [a |]; simpl; [| discriminate].
    destruct (FRA.strptime_obj S) as [b |]; simpl; [| discriminate].
    intros [= <- <- <- <- <-] H.
    assert (H' : 0 <= IZR (a - dtt)).
    { unfold DAYS_IN_YEAR in H.
      apply (Rmult_le_compat_r 365) in H; [| lra].
      unfold Rdiv in H. rewrite Rmult_assoc, Rinv_l in H by lra. lra. }
    apply le_IZR in H'. lia.
  - destruct (number T) as [x |] eqn:HT; [| discriminate].
    destruct (date_add_days dtt T) as [a |] eqn:Ha; simpl; [| discriminate].
    destruct (date_add_days dtt S) as [b |]; simpl; [| discriminate].
    destruct (number S) as [y |]; [| discriminate].
    destruct (R_eqb _ _); simpl; [| discriminate].
    intros [= <- <- <- <- <-] H.
    apply date_add_days_inv in Ha. destruct Ha as (n & Hn & ->).
    pose proof (timedelta_days_nonneg T x n HT H Hn). lia.
Qed.

Lemma date_add_days_int_0 (d : date) :
  (MINORDINAL <= d <= MAXORDINAL)%Z -> date_add_days d (PyInt 0) = Ok d.
Proof.
  intros [H1 H2]. unfold date_add_days. simpl.
  rewrite Z.add_0_r.
  apply Z.leb_le in H1, H2. rewrite H1, H2. reflexivity.
Qed.

Lemma date_add_days_float_0 (d : date) :
  (MINORDINAL <= d <= MAXORDINAL)%Z ->
  date_add_days d (PyFloat (365 * 0)) = Ok d.
Proof.
  intros [H1 H2]. unfold date_add_days. simpl.
  replace (365 * 0 * IZR US_PER_DAY) with 0 by lra.
  rewrite round_half_even_0. simpl. rewrite Z.add_0_r.
  apply Z.leb_le in H1, H2. rewrite H1, H2. reflexivity.
Qed.

(** The forward rate recomputed at time 0 on the curve of the construction
    is [K], and the value is [N * tau * (K - K)]. *)
Lemma value_at_0 (fra : FRA.obj) (t0 k : R) :
  FRA.simple_forward (discount_curve (FRA.ZCB_init fra))
    (FRA.T fra) (FRA.S fra) (FRA.tau fra) = Ok (FRA.K fra) ->
  FRA.K fra = Some k -> t0 = 0 ->
  FRA.value_at fra (discount_curve (FRA.ZCB_init fra)) t0 = Ok (Some 0).
Proof.
  intros HK Hk ->. unfold FRA.value_at.
  rewrite !Rminus_0_r, HK, Hk. simpl. do 2 f_equal. ring.
Qed.

(** C2 (as amended).  An agreement whose maturity is not before inception
    and whose fair rate [K], as [__init__] left it, is finite, valued at
    inception on the curve of its construction, is worth 0: with the time
    given as the integer 0, as the float 0 and as the inception date. *)
Theorem value_at_inception_is_zero
    (t : string) (T S : pyobj) (tau N : R) (c : ZCB_curve.obj) (f : R)
    (fra : FRA.obj) (k : R) :
  FRA.init t T S tau N c f = Ok fra ->
  0 <= FRA.T fra ->
  FRA.K fra = Some k ->
  FRA.get_value fra (PyInt 0) c = Ok (Some 0) /\
  FRA.get_value fra (PyFloat 0) c = Ok (Some 0) /\
  FRA.get_value fra (PyStr t) c = Ok (Some 0).
Proof.
  intros Hinit HT Hk.
  destruct (FRA_init_inv _ _ _ _ _ _ _ _ Hinit)
    as (_ & Ht & Hq & _ & _ & HK & Hc & _ & _).
  pose proof (strptime_range _ _ Ht) as Hrange.
  pose proof (times_maturity_after_inception _ _ _ _ _ _ _ _ _ Hq HT) as Hd.
  rewrite <- Hc in HK.
  unfold FRA.get_value. rewrite get_curve_discount. rewrite <- Hc at 1 2 3.
  simpl. rewrite (R_leb_true _ _ HT). simpl.
  rewrite (date_add_days_int_0 _ Hrange), (date_add_days_float_0 _ Hrange).
  simpl. rewrite Ht. simpl.
  rewrite Z.leb_refl. apply Z.leb_le in Hd. rewrite Hd. simpl.
  rewrite !(value_at_0 fra _ k HK Hk); try reflexivity.
  - repeat split.
  - rewrite Z.sub_diag. unfold DAYS_IN_YEAR. lra.
Qed.

(** C2 (as amended) for the example agreement built from day offsets. *)
Lemma value_at_inception_is_zero_witness :
  FRA.get_value fra_days (PyInt 0) spine_curve = Ok (Some 0) /\
  FRA.get_value fra_days (PyFloat 0) spine_curve = Ok (Some 0) /\
  FRA.get_value fra_days (PyStr "2023-06-01") spine_curve = Ok (Some 0).
Proof.
  apply (value_at_inception_is_zero "2023-06-01" (PyInt 92) (PyInt 183)
           (91 / 365) 1000000 spine_curve (1 / 2) fra_days
           ((spine_d0 / spine_mid - 1) / (91 / 365)) fra_days_init).
  - simpl. lra.
  - reflexivity.
Defined.

Lemma fra_past_init :
  FRA.init "2023-06-01" (PyInt (-5)) (PyInt (-2)) (3 / 365)
    1000000 spine_curve (1 / 2) = Ok fra_past.
Proof.
  unfold FRA.init, FRA.times, FRA.simple_forward. simpl.
  decide_R. simpl.
  rewrite !spine_interp_left by (unfold DAYS_IN_YEAR; lra). simpl.
  rewrite R_eqb_false by (rewrite spine_d0_val; lra). simpl.
  decide_R. unfold fra_past. do 3 f_equal.
  rewrite spine_d0_val. lra.
Qed.

Lemma zero_curve_init :
  ZCB_curve.init "2023-06-01" [1] [0] "discount factor" 0 = Ok zero_curve.
Proof. apply init_discount_factor; reflexivity. Qed.

Lemma fra_nan_init :
  FRA.init "2023-06-01" (PyInt 92) (PyInt 183) (91 / 365)
    1000000 zero_curve (1 / 2) = Ok fra_nan.
Proof.
  unfold FRA.init, FRA.times, FRA.simple_forward. simpl.
  decide_R. simpl. unfold np_interp. simpl. unfold DAYS_IN_YEAR.
  decide_R. simpl. decide_R. reflexivity.
Qed.

(** C2 as stated fails.  The agreement [fra_past], with the fair rate
    [__init__] gave it, is not valued at inception on the curve of its
    construction: both forms of the inception time fail the window check.
    The agreement [fra_nan] is valued, and its value is not finite. *)
Lemma value_at_inception_can_fail :
  (FRA.init "2023-06-01" (PyInt (-5)) (PyInt (-2)) (3 / 365)
     1000000 spine_curve (1 / 2) = Ok fra_past /\
   FRA.get_value fra_past (PyInt 0) spine_curve = Raise AssertionError /\
   FRA.get_value fra_past (PyStr "2023-06-01") spine_curve = Raise AssertionError) /\
  (ZCB_curve.init "2023-06-01" [1] [0] "discount factor" 0 = Ok zero_curve /\
   FRA.init "2023-06-01" (PyInt 92) (PyInt 183) (91 / 365)
     1000000 zero_curve (1 / 2) = Ok fra_nan /\
   FRA.get_value fra_nan (PyInt 0) zero_curve = Ok None).
Proof.
  split.
  - split; [exact fra_past_init |]. split.
    + apply (get_value_after_maturity fra_past spine_curve (PyInt 0) 0);
        [reflexivity | simpl; lra].
    + apply (get_value_date_outside_window fra_past spine_curve "2023-06-01"
               738672%Z); [reflexivity | right; simpl; lia].
  - split; [exact zero_curve_init |]. split; [exact fra_nan_init |].
    unfold FRA.get_value, FRA.value_at, FRA.simple_forward. simpl.
    decide_R. simpl. unfold np_interp. simpl. unfold DAYS_IN_YEAR.
    decide_R. simpl. decide_R. reflexivity.
Qed.

(** * Further properties of the code *)

(** ** Facts about the sample curves and agreements *)

Lemma df_curve_init :
  ZCB_curve.init "2023-06-01" [1; 2] [19 / 20; 9 / 10] "discount factor" (1 / 2)
  = Ok df_curve.
Proof. apply init_discount_factor; reflexivity. Qed.

Lemma empty_curve_init :
  ZCB_curve.init "2023-06-01" [] [] "yield" (1 / 2) = Ok empty_curve.
Proof. apply init_yield; reflexivity. Qed.

Lemma spine_T_s_ascending : ascending (ZCB_curve.T_s spine_curve).
Proof.
  simpl. unfold spine_T_s. repeat constructor. lra.
Qed.

Lemma spine_dcf_decreasing : Sorted Rgt [spine_d0; spine_d1].
Proof.
  repeat constructor. rewrite spine_d0_val, spine_d1_val. lra.
Qed.

Lemma spine_dcf_positive : Forall (fun v => 0 < v) [spine_d0; spine_d1].
Proof.
  repeat constructor; rewrite ?spine_d0_val, ?spine_d1_val; lra.
Qed.

(** Evaluates [np_interp] on literal arrays. *)
Ltac eval_interp :=
  unfold np_interp; simpl; decide_R; simpl; decide_R; simpl; decide_R;
  try reflexivity.

Lemma df_curve_factor_0_half :
  ZCB_curve.get_discount_factor df_curve (PyInt 0) (PyFloat (1 / 2)) "linear" =
  Ok (Some (19 / 20 / (19 / 20))).
Proof.
  unfold ZCB_curve.get_discount_factor. simpl. decide_R. simpl. decide_R.
  simpl. eval_interp.
Qed.

Lemma df_curve_factor_half_3_halves :
  ZCB_curve.get_discount_factor df_curve (PyFloat (1 / 2)) (PyFloat (3 / 2))
    "linear" =
  Ok (Some (((9 / 10 - 19 / 20) / (2 - 1) * (3 / 2 - 1) + 19 / 20) / (19 / 20))).
Proof.
  unfold ZCB_curve.get_discount_factor. simpl. decide_R. simpl. decide_R.
  simpl. eval_interp.
Qed.

Lemma two_point_yield_after_2 (x : R) :
  2 <= x ->
  np_interp x (ZCB_curve.T_s two_point_curve) (ZCB_curve.r_s two_point_curve) =
  Ok (Some 6).
Proof. intro H. eval_interp. Qed.

Lemma two_point_yield_until_1 (x : R) :
  x <= 1 ->
  np_interp x (ZCB_curve.T_s two_point_curve) (ZCB_curve.r_s two_point_curve) =
  Ok (Some 5).
Proof.
  intro H. unfold np_interp. simpl.
  destruct (Rlt_dec x 1) as [Hlt | Hge].
  - rewrite (R_ltb_true _ _ Hlt). reflexivity.
  - assert (x = 1) by lra. subst x. decide_R. reflexivity.
Qed.

Lemma spine_yield_left (x : R) :
  x < 1 / 2 ->
  np_interp x (ZCB_curve.T_s spine_curve) (ZCB_curve.r_s spine_curve) =
  Ok (Some 5).
Proof. intro H. eval_interp. Qed.

Lemma fra_days_value_at_0 :
  FRA.get_value fra_days (PyInt 0) spine_curve = Ok (Some 0).
Proof.
  unfold FRA.get_value, FRA.value_at, FRA.simple_forward. simpl.
  decide_R. simpl.
  rewrite !spine_interp_left by (unfold DAYS_IN_YEAR; lra).
  rewrite !spine_interp_mid by (unfold DAYS_IN_YEAR; lra). simpl.
  unfold DAYS_IN_YEAR.
  replace (183 - 0) with 183 by lra. fold spine_mid.
  pose proof spine_mid_bounds.
  decide_R. simpl. decide_R. simpl.
  do 2 f_equal. replace (92 - 0) with 92 by lra. ring.
Qed.

(** ** What [ZCB_curve.__init__] checks and stores *)

Lemma length_map2 {A B C : Type} (op : A -> B -> C) (l : list A) (m : list B) :
  List.length l = List.length m -> List.length (map2 op l m) = List.length l.
Proof.
  intro H. unfold map2. rewrite length_map, length_combine, <- H.
  apply Nat.min_id.
Qed.

(** X1. [ZCB_curve.__init__] fails with [AssertionError] when the two sequences
    differ in length, whatever the other arguments, and when the rate kind
    is neither ['yield'] nor ['discount factor']; once both checks pass it
    fails with [ValueError] on a reference date that does not parse, and
    otherwise returns a curve anchored on the parsed date. *)
Theorem curve_init_checks (t : string) (T_s r_s : list R) (kind : string) (f : R) :
  (List.length T_s <> List.length r_s ->
   ZCB_curve.init t T_s r_s kind f = Raise AssertionError) /\
  (kind <> "yield"%string -> kind <> "discount factor"%string ->
   ZCB_curve.init t T_s r_s kind f = Raise AssertionError) /\
  (List.length T_s = List.length r_s ->
   kind = "yield"%string \/ kind = "discount factor"%string ->
   (strptime t = Raise ValueError ->
    ZCB_curve.init t T_s r_s kind f = Raise ValueError) /\
   (forall d, strptime t = Ok d ->
    exists c, ZCB_curve.init t T_s r_s kind f = Ok c /\ ZCB_curve.t c = d)).
Proof.
  unfold ZCB_curve.init. split; [| split].
  - intro Hlen. apply Nat.eqb_neq in Hlen. rewrite Hlen. reflexivity.
  - intros Hy Hd. apply String.eqb_neq in Hy, Hd. rewrite Hy, Hd.
    destruct (_ =? _)%nat; reflexivity.
  - intros Hlen Hk. rewrite Hlen, Nat.eqb_refl.
    split.
    + intro Ht. rewrite Ht. destruct Hk as [-> | ->]; reflexivity.
    + intros d Ht. rewrite Ht.
      destruct Hk as [-> | ->]; simpl; eexists; split; reflexivity.
Qed.

(** X1 for a length mismatch, an unknown kind, an unparsed date and a
    well-formed call. *)
Lemma curve_init_checks_witness :
  ZCB_curve.init "2023-06-01" [1] [5; 6] "yield" 0 = Raise AssertionError /\
  ZCB_curve.init "2023-06-01" [1] [5] "price" 0 = Raise AssertionError /\
  ZCB_curve.init "1 June 2023" [1] [5] "yield" 0 = Raise ValueError /\
  exists c, ZCB_curve.init "2023-06-01" [1] [5] "yield" 0 = Ok c /\
            ZCB_curve.t c = 738672%Z.
Proof.
  split; [| split; [| split]].
  - apply (proj1 (curve_init_checks "2023-06-01" [1] [5; 6] "yield" 0)).
    discriminate.
  - apply (proj1 (proj2 (curve_init_checks "2023-06-01" [1] [5] "price" 0)));
      discriminate.
  - apply (proj2 (proj2 (curve_init_checks "1 June 2023" [1] [5] "yield" 0)));
      [reflexivity | left; reflexivity | reflexivity].
  - apply (proj2 (proj2 (curve_init_checks "2023-06-01" [1] [5] "yield" 0)));
      [reflexivity | left; reflexivity | reflexivity].
Defined.

(** X2. Every curve [__init__] returns keeps the maturities and the
    compounding frequency it was given, has the rate kind ['yield'] whatever
    kind it was built from, holds one yield and one discount factor per
    maturity, and stores the given rates unchanged as yields, or as discount
    factors, according to the kind. *)
Theorem curve_init_invariants (t : string) (T_s r_s : list R) (kind : string)
    (f : R) (c : ZCB_curve.obj) :
  ZCB_curve.init t T_s r_s kind f = Ok c ->
  ZCB_curve.T_s c = T_s /\
  ZCB_curve.compounding c = f /\
  ZCB_curve.r_s_type c = "yield"%string /\
  List.length (ZCB_curve.r_s c) = List.length T_s /\
  List.length (ZCB_curve.dcf c) = List.length T_s /\
  (kind = "yield"%string -> ZCB_curve.r_s c = map fin r_s) /\
  (kind = "discount factor"%string -> ZCB_curve.dcf c = map fin r_s).
Proof.
  intro Hinit.
  destruct (init_inv _ _ _ _ _ _ Hinit) as (Hlen & t0 & _ & [[-> ->] | [-> ->]]);
    simpl; rewrite length_map, (length_map2 _ _ _ Hlen), Hlen;
    repeat split; try reflexivity; discriminate.
Qed.

(** X2 for the example curve. *)
Lemma curve_init_invariants_witness :
  ZCB_curve.T_s spine_curve = spine_T_s /\
  ZCB_curve.compounding spine_curve = 1 / 2 /\
  ZCB_curve.r_s_type spine_curve = "yield"%string /\
  List.length (ZCB_curve.r_s spine_curve) = List.length spine_T_s /\
  List.length (ZCB_curve.dcf spine_curve) = List.length spine_T_s /\
  ("yield"%string = "yield"%string ->
   ZCB_curve.r_s spine_curve = map fin spine_r_s) /\
  ("yield"%string = "discount factor"%string ->
   ZCB_curve.dcf spine_curve = map fin spine_r_s).
Proof.
  exact (curve_init_invariants "2023-06-01" spine_T_s spine_r_s "yield" (1 / 2)
           spine_curve spine_curve_init).
Defined.

Lemma yield_of_dcf_formulas (f T d : R) :
  0 < d -> T <> 0 ->
  (f <> 0 ->
   ZCB_curve.yield_of_dcf f T d = Some ((Rpower d (- (f / T)) - 1) / f)) /\
  (f = 0 -> ZCB_curve.yield_of_dcf f T d = Some (- ln d / T)).
Proof.
  intros Hd HT. unfold ZCB_curve.yield_of_dcf.
  assert (Hinv : 0 < 1 / d) by (apply Rdiv_lt_0_compat; lra).
  split.
  - intro Hf. rewrite (R_eqb_false _ _ Hf). simpl.
    rewrite R_eqb_false by lra. rewrite (R_eqb_false _ _ HT). simpl.
    unfold pow_R. rewrite (R_ltb_true _ _ Hinv). simpl.
    rewrite (R_eqb_false _ _ Hf). do 3 f_equal.
    unfold Rpower. f_equal.
    unfold Rdiv at 2. rewrite Rmult_1_l, ln_Rinv by exact Hd. ring.
  - intros ->. rewrite R_eqb_refl. simpl.
    rewrite R_eqb_false by lra. simpl.
    rewrite (R_ltb_true _ _ Hinv). simpl. rewrite (R_eqb_false _ _ HT).
    do 2 f_equal.
    unfold Rdiv at 1. rewrite Rmult_1_l, ln_Rinv by exact Hd. reflexivity.
Qed.

(** X3. A curve built from discount factors stores a positive discount
    factor [d] at a maturity [T <> 0] unchanged, and with it the yield
    [(d^(-f/T) - 1) / f] when the compounding frequency [f] is not 0, and
    [-ln(d) / T] when it is 0: a rate per unit, not in percent. *)
Theorem curve_from_discount_factors_stores_yields
    (t : string) (T_s ds : list R) (f : R) (c : ZCB_curve.obj)
    (i : nat) (T d : R) :
  ZCB_curve.init t T_s ds "discount factor" f = Ok c ->
  nth_error T_s i = Some T -> nth_error ds i = Some d ->
  0 < d -> T <> 0 ->
  nth_error (ZCB_curve.dcf c) i = Some (Some d) /\
  (f <> 0 ->
   nth_error (ZCB_curve.r_s c) i =
   Some (Some ((Rpower d (- (f / T)) - 1) / f))) /\
  (f = 0 -> nth_error (ZCB_curve.r_s c) i = Some (Some (- ln d / T))).
Proof.
  intros Hinit HT Hd Hpos HT0.
  destruct (init_inv _ _ _ _ _ _ Hinit) as (_ & t0 & _ & [[Hk _] | [_ ->]]);
    [discriminate Hk |].
  simpl. rewrite (nth_error_map2 _ _ _ _ _ _ HT Hd).
  destruct (yield_of_dcf_formulas f T d Hpos HT0) as [Hp Hc].
  split; [apply map_nth_error; exact Hd |].
  split; intro Hf; f_equal; auto.
Qed.

(** X3 at the first spine point of [df_curve]. *)
Lemma curve_from_discount_factors_stores_yields_witness :
  nth_error (ZCB_curve.r_s df_curve) 0 =
  Some (Some ((Rpower (19 / 20) (- (1 / 2 / 1)) - 1) / (1 / 2))).
Proof.
  apply (curve_from_discount_factors_stores_yields "2023-06-01" [1; 2]
           [19 / 20; 9 / 10] (1 / 2) df_curve 0 1 (19 / 20) df_curve_init
           eq_refl eq_refl); lra.
Defined.

Lemma dcf_of_yield_of_dcf (f T d : R) :
  0 < d -> T <> 0 ->
  exists y, ZCB_curve.yield_of_dcf f T d = Some y /\
            ZCB_curve.dcf_of_yield f T (100 * y) = Some d.
Proof.
  intros Hd HT.
  assert (Hinv : 0 < 1 / d) by (apply Rdiv_lt_0_compat; lra).
  unfold ZCB_curve.yield_of_dcf, ZCB_curve.dcf_of_yield.
  destruct (Req_dec_T f 0) as [-> | Hf].
  - rewrite R_eqb_refl. simpl.
    rewrite R_eqb_false by lra. simpl.
    rewrite (R_ltb_true _ _ Hinv). simpl. rewrite (R_eqb_false _ _ HT).
    eexists. split; [reflexivity |]. unfold fin. f_equal.
    replace (- (100 * (ln (1 / d) / T)) * T / 100) with (- ln (1 / d))
      by (field; exact HT).
    unfold Rdiv. rewrite Rmult_1_l, ln_Rinv, Ropp_involutive by exact Hd.
    apply exp_ln. exact Hd.
  - rewrite (R_eqb_false _ _ Hf). simpl.
    rewrite R_eqb_false by lra. rewrite (R_eqb_false _ _ HT). simpl.
    unfold pow_R at 1. rewrite (R_ltb_true _ _ Hinv). simpl.
    rewrite (R_eqb_false _ _ Hf).
    eexists. split; [reflexivity |].
    set (b := Rpower (1 / d) (f / T)).
    assert (Hb : 0 < b) by apply Rpower_pos.
    replace (1 + 100 * ((b - 1) / f) * f / 100) with b by (field; exact Hf).
    unfold pow_R. rewrite (R_ltb_true _ _ Hb). unfold b.
    rewrite Rpower_mult.
    replace (f / T * (T / f)) with 1 by (field; split; assumption).
    rewrite (Rpower_1 _ Hinv). simpl.
    rewrite R_eqb_false by lra. f_equal. field. lra.
Qed.

Lemma scaled_round_trip_arrays (f : R) (T_s ds : list R) :
  List.length T_s = List.length ds ->
  Forall (fun T => T <> 0) T_s -> Forall (fun d => 0 < d) ds ->
  exists ys,
    map2 (ZCB_curve.yield_of_dcf f) T_s ds = map fin ys /\
    List.length T_s = List.length ys /\
    map2 (ZCB_curve.dcf_of_yield f) T_s (map (Rmult 100) ys) = map fin ds.
Proof.
  revert ds. induction T_s as [| T T_s IH]; intros [| d ds] Hlen HT Hd;
    try discriminate.
  - exists []. repeat split.
  - inversion HT as [| ? ? HT0 HTs]; subst.
    inversion Hd as [| ? ? Hd0 Hds]; subst.
    destruct (IH ds) as (ys & Hy & Hl & Hr); try assumption;
      [simpl in Hlen; congruence |].
    destruct (dcf_of_yield_of_dcf f T d Hd0 HT0) as (y & Hy0 & Hr0).
    exists (y :: ys). unfold map2 in *. simpl.
    rewrite Hy0, Hy, Hr0, Hr, Hl. repeat split.
Qed.

(** X4. From discount factors to yields and back: for positive discount
    factors at maturities other than 0, the yields the curve stores are
    finite, and a curve built from 100 times these yields stores the
    original discount factors. *)
Theorem discount_factors_round_trip_through_percent
    (t : string) (T_s ds : list R) (f : R) (c : ZCB_curve.obj) :
  ZCB_curve.init t T_s ds "discount factor" f = Ok c ->
  Forall (fun T => T <> 0) T_s -> Forall (fun d => 0 < d) ds ->
  exists ys c',
    ZCB_curve.r_s c = map fin ys /\
    ZCB_curve.init t T_s (map (Rmult 100) ys) "yield" f = Ok c' /\
    ZCB_curve.dcf c' = ZCB_curve.dcf c.
Proof.
  intros Hinit HT Hd.
  destruct (init_inv _ _ _ _ _ _ Hinit) as (Hlen & t0 & Ht & [[Hk _] | [_ ->]]);
    [discriminate Hk |].
  destruct (scaled_round_trip_arrays f T_s ds Hlen HT Hd) as (ys & Hy & Hl & Hr).
  exists ys. eexists. split; [exact Hy |]. split.
  - apply init_yield; [rewrite length_map; exact Hl | exact Ht].
  - simpl. exact Hr.
Qed.

(** X4 for [df_curve]. *)
Lemma discount_factors_round_trip_through_percent_witness :
  exists ys c',
    ZCB_curve.r_s df_curve = map fin ys /\
    ZCB_curve.init "2023-06-01" [1; 2] (map (Rmult 100) ys) "yield" (1 / 2)
      = Ok c' /\
    ZCB_curve.dcf c' = ZCB_curve.dcf df_curve.
Proof.
  apply (discount_factors_round_trip_through_percent "2023-06-01" [1; 2]
           [19 / 20; 9 / 10] (1 / 2) df_curve df_curve_init).
  - repeat constructor; lra.
  - repeat constructor; lra.
Defined.

(** ** The interpolator of [get_curve] *)

Lemma get_curve_linear (c : ZCB_curve.obj) (which : string) :
  which = "yield"%string \/ which = "discount factor"%string ->
  ZCB_curve.get_curve c "linear" which =
  Ok (Some (fun x => np_interp x (ZCB_curve.T_s c) (stored c which))).
Proof. intros [-> | ->]; reflexivity. Qed.

Lemma interp_from_step (x x0 x1 : R) (xp : list R) (f0 f1 : float)
    (fp : list float) :
  interp_from x (x0 :: x1 :: xp) (f0 :: f1 :: fp) =
  if R_ltb x x1 then
    if R_eqb x x0 then f0
    else ((f1 - f0) / fin (x1 - x0) * fin (x - x0) + f0)%fl
  else interp_from x (x1 :: xp) (f1 :: fp).
Proof. reflexivity. Qed.

Lemma interp_from_right (x : R) (xp : list R) (fp : list float) :
  List.length xp = List.length fp -> xp <> [] ->
  Forall (fun xi => xi <= x) xp ->
  interp_from x xp fp = last fp None.
Proof.
  revert fp. induction xp as [| x0 xp IH]; intros fp Hlen Hne Hall;
    [contradiction |].
  destruct fp as [| f0 fp]; [discriminate |].
  destruct xp as [| x1 xp].
  - destruct fp; [reflexivity | discriminate].
  - destruct fp as [| f1 fp]; [discriminate |].
    inversion Hall as [| ? ? _ Htl]; subst.
    inversion Htl as [| ? ? H1 _]; subst.
    rewrite interp_from_step, (R_ltb_false _ _ H1).
    rewrite IH; [reflexivity | simpl in *; lia | discriminate | exact Htl].
Qed.

Lemma ascending_below_last (xp : list R) (d : R) :
  ascending xp -> Forall (fun xi => xi <= last xp d) xp.
Proof.
  induction 1 as [| x0 xp Hs IH Hall]; [constructor |].
  destruct xp as [| x1 xp].
  - constructor; [simpl; lra | constructor].
  - change (last (x0 :: x1 :: xp) d) with (last (x1 :: xp) d).
    constructor; [| exact IH].
    inversion Hall as [| ? ? H1 _]; subst.
    inversion IH as [| ? ? H2 _]; subst. lra.
Qed.

Lemma np_interp_left (x x0 : R) (xp : list R) (f0 : float) (fp : list float) :
  List.length xp = List.length fp -> ascending (x0 :: xp) -> x <= x0 ->
  np_interp x (x0 :: xp) (f0 :: fp) = Ok f0.
Proof.
  intros Hlen Hs Hx. unfold np_interp. simpl List.length.
  rewrite Hlen, Nat.eqb_refl. cbn [negb].
  destruct (Rlt_dec x x0) as [Hlt | Hge].
  - rewrite (R_ltb_true _ _ Hlt). reflexivity.
  - assert (x = x0) by lra. subst x.
    rewrite R_ltb_false by lra. f_equal.
    destruct xp as [| x1 xp]; destruct fp as [| f1 fp]; try discriminate;
      [reflexivity |].
    inversion Hs as [| ? ? _ Hall]; subst.
    inversion Hall as [| ? ? H1 _]; subst.
    rewrite interp_from_step, (R_ltb_true _ _ H1), R_eqb_refl. reflexivity.
Qed.

Lemma np_interp_right (x : R) (xp : list R) (fp : list float) :
  List.length xp = List.length fp -> xp <> [] -> ascending xp ->
  last xp 0 <= x ->
  np_interp x xp fp = Ok (last fp None).
Proof.
  intros Hlen Hne Hs Hx. unfold np_interp.
  rewrite Hlen, Nat.eqb_refl. cbn [negb].
  assert (Hall : Forall (fun xi => xi <= x) xp).
  { eapply Forall_impl; [| apply (ascending_below_last xp 0 Hs)].
    simpl. intros. lra. }
  destruct xp as [| x0 xp]; [contradiction |].
  destruct fp as [| f0 fp]; [discriminate |].
  inversion Hall as [| ? ? H0 _]; subst.
  destruct (Rlt_dec x x0) as [Hlt | Hge]; [lra |].
  rewrite R_ltb_false by lra.
  f_equal. apply interp_from_right; [exact Hlen | discriminate | exact Hall].
Qed.

(** X5. On a curve with increasing maturities, the linear interpolator of
    either representation returns the first stored value at every time up
    to the first maturity and the last stored value at every time from the
    last maturity on. *)
Theorem interpolator_clamps_outside_maturities
    (c : ZCB_curve.obj) (which : string) :
  which = "yield"%string \/ which = "discount factor"%string ->
  ZCB_curve.T_s c <> [] -> ascending (ZCB_curve.T_s c) ->
  List.length (ZCB_curve.T_s c) = List.length (stored c which) ->
  exists y,
    ZCB_curve.get_curve c "linear" which = Ok (Some y) /\
    (forall x, x <= hd 0 (ZCB_curve.T_s c) -> y x = Ok (hd None (stored c which))) /\
    (forall x, last (ZCB_curve.T_s c) 0 <= x ->
       y x = Ok (last (stored c which) None)).
Proof.
  intros Hw Hne Hs Hlen. eexists. split; [apply get_curve_linear; exact Hw |].
  split; intros x Hx.
  - destruct (ZCB_curve.T_s c) as [| x0 xp]; [contradiction |].
    destruct (stored c which) as [| f0 fp]; [discriminate |].
    apply np_interp_left; [simpl in Hlen; lia | exact Hs | exact Hx].
  - apply np_interp_right; assumption.
Qed.

(** X5 for the discount factors of the example curve. *)
Lemma interpolator_clamps_outside_maturities_witness :
  exists y,
    ZCB_curve.get_curve spine_curve "linear" "discount factor" = Ok (Some y) /\
    (forall x, x <= hd 0 (ZCB_curve.T_s spine_curve) ->
       y x = Ok (hd None (stored spine_curve "discount factor"))) /\
    (forall x, last (ZCB_curve.T_s spine_curve) 0 <= x ->
       y x = Ok (last (stored spine_curve "discount factor") None)).
Proof.
  apply (interpolator_clamps_outside_maturities spine_curve "discount factor").
  - right. reflexivity.
  - discriminate.
  - exact spine_T_s_ascending.
  - reflexivity.
Defined.

Lemma ascending_head_le (x0 : R) (xp : list R) (i : nat) (xi : R) :
  ascending (x0 :: xp) -> nth_error (x0 :: xp) i = Some xi -> x0 <= xi.
Proof.
  intros Hs Hi. destruct i as [| j]; simpl in Hi.
  - injection Hi as <-. lra.
  - inversion Hs as [| ? ? _ Hall]; subst.
    apply nth_error_In in Hi.
    rewrite Forall_forall in Hall. specialize (Hall _ Hi). lra.
Qed.

Lemma interp_from_at_spine (xp : list R) (fp : list float) (i : nat) (xi : R)
    (fi : float) :
  List.length xp = List.length fp -> ascending xp ->
  nth_error xp i = Some xi -> nth_error fp i = Some fi ->
  interp_from xi xp fp = fi.
Proof.
  revert fp i. induction xp as [| x0 xp IH]; intros fp i Hlen Hs Hx Hf;
    [destruct i; discriminate |].
  destruct fp as [| f0 fp]; [discriminate |].
  inversion Hs as [| ? ? Hs' Hall]; subst.
  destruct i as [| j]; simpl in Hx, Hf.
  - injection Hx as <-. injection Hf as <-.
    destruct xp as [| x1 xp]; destruct fp as [| f1 fp]; try discriminate;
      [reflexivity |].
    inversion Hall as [| ? ? H1 _]; subst.
    rewrite interp_from_step, (R_ltb_true _ _ H1), R_eqb_refl. reflexivity.
  - destruct xp as [| x1 xp]; [destruct j; discriminate |].
    destruct fp as [| f1 fp]; [discriminate |].
    pose proof (ascending_head_le x1 xp j xi Hs' Hx) as H1.
    rewrite interp_from_step, (R_ltb_false _ _ H1).
    apply (IH (f1 :: fp) j); [simpl in *; lia | exact Hs' | exact Hx | exact Hf].
Qed.

Lemma np_interp_at_spine (xp : list R) (fp : list float) (i : nat) (xi : R)
    (fi : float) :
  List.length xp = List.length fp -> ascending xp ->
  nth_error xp i = Some xi -> nth_error fp i = Some fi ->
  np_interp xi xp fp = Ok fi.
Proof.
  intros Hlen Hs Hx Hf. unfold np_interp.
  rewrite Hlen, Nat.eqb_refl. cbn [negb].
  destruct xp as [| x0 xp]; [destruct i; discriminate |].
  destruct fp as [| f0 fp]; [discriminate |].
  rewrite (R_ltb_false _ _ (ascending_head_le x0 xp i xi Hs Hx)).
  f_equal. apply (interp_from_at_spine _ _ i); assumption.
Qed.

(** X6. On a curve with increasing maturities, the linear interpolator of
    either representation returns, at each maturity, the value stored for
    it. *)
Theorem interpolator_exact_at_maturities
    (c : ZCB_curve.obj) (which : string) (i : nat) (T : R) (v : float) :
  which = "yield"%string \/ which = "discount factor"%string ->
  ascending (ZCB_curve.T_s c) ->
  List.length (ZCB_curve.T_s c) = List.length (stored c which) ->
  nth_error (ZCB_curve.T_s c) i = Some T ->
  nth_error (stored c which) i = Some v ->
  exists y,
    ZCB_curve.get_curve c "linear" which = Ok (Some y) /\ y T = Ok v.
Proof.
  intros Hw Hs Hlen HT Hv. eexists. split; [apply get_curve_linear; exact Hw |].
  apply (np_interp_at_spine _ _ i); assumption.
Qed.

(** X6 at the second maturity of the example curve. *)
Lemma interpolator_exact_at_maturities_witness :
  exists y,
    ZCB_curve.get_curve spine_curve "linear" "yield" = Ok (Some y) /\
    y 1 = Ok (Some (11 / 2)).
Proof.
  apply (interpolator_exact_at_maturities spine_curve "yield" 1 1 (Some (11 / 2))).
  - left. reflexivity.
  - exact spine_T_s_ascending.
  - reflexivity.
  - reflexivity.
  - reflexivity.
Defined.

Lemma chord_between (lo hi x0 x1 f0 f1 x : R) :
  x0 <= x < x1 -> lo <= f0 <= hi -> lo <= f1 <= hi ->
  lo <= chord x0 x1 f0 f1 x <= hi.
Proof.
  intros [H0 H1] Hf0 Hf1. unfold chord.
  set (s := (x - x0) / (x1 - x0)).
  assert (Hs : 0 <= s < 1).
  { unfold s. split.
    - unfold Rdiv. apply Rmult_le_pos; [lra |].
      apply Rlt_le, Rinv_0_lt_compat. lra.
    - apply (Rmult_lt_reg_r (x1 - x0)); [lra |].
      unfold Rdiv. rewrite Rmult_assoc, Rinv_l by lra. lra. }
  replace ((f1 - f0) / (x1 - x0) * (x - x0) + f0) with (f0 + (f1 - f0) * s)
    by (unfold s; field; lra).
  split; nra.
Qed.

Lemma chord_antitone (x0 x1 f0 f1 x x' : R) :
  x0 < x1 -> f1 <= f0 -> x <= x' ->
  chord x0 x1 f0 f1 x' <= chord x0 x1 f0 f1 x.
Proof.
  intros H01 Hf Hx. unfold chord.
  set (k := (f1 - f0) / (x1 - x0)).
  assert (E : k * (x1 - x0) = f1 - f0) by (unfold k; field; lra).
  assert (Hk : k <= 0) by nra.
  nra.
Qed.

Lemma chord_decreasing (x0 x1 f0 f1 x x' : R) :
  x0 < x1 -> f1 < f0 -> x < x' ->
  chord x0 x1 f0 f1 x' < chord x0 x1 f0 f1 x.
Proof.
  intros H01 Hf Hx. unfold chord.
  set (k := (f1 - f0) / (x1 - x0)).
  assert (E : k * (x1 - x0) = f1 - f0) by (unfold k; field; lra).
  assert (Hk : k < 0) by nra.
  nra.
Qed.

Lemma interp_from_chord (x x0 x1 : R) (xp : list R) (f0 f1 : R)
    (fs : list R) :
  x0 <= x < x1 ->
  interp_from x (x0 :: x1 :: xp) (map fin (f0 :: f1 :: fs)) =
  Some (chord x0 x1 f0 f1 x).
Proof.
  intros [H0 H1]. cbn [map]. rewrite interp_from_step, (R_ltb_true _ _ H1).
  destruct (Req_dec_T x x0) as [-> | Hne].
  - rewrite R_eqb_refl. unfold fin, chord. f_equal. field. lra.
  - rewrite (R_eqb_false _ _ Hne). unfold fin. simpl.
    rewrite R_eqb_false by lra. reflexivity.
Qed.

Lemma interp_from_next (x x0 x1 : R) (xp : list R) (f0 f1 : R) (fs : list R) :
  x1 <= x ->
  interp_from x (x0 :: x1 :: xp) (map fin (f0 :: f1 :: fs)) =
  interp_from x (x1 :: xp) (map fin (f1 :: fs)).
Proof.
  intro H1. cbn [map]. rewrite interp_from_step, (R_ltb_false _ _ H1).
  reflexivity.
Qed.

Lemma interp_from_bounds (lo hi x x0 : R) (xp : list R) (fs : list R) :
  List.length (x0 :: xp) = List.length fs -> x0 <= x ->
  Forall (fun v => lo <= v <= hi) fs ->
  exists v, interp_from x (x0 :: xp) (map fin fs) = Some v /\ lo <= v <= hi.
Proof.
  revert x0 fs. induction xp as [| x1 xp IH]; intros x0 fs Hlen H0 Hall.
  - destruct fs as [| f0 [| ? ?]]; try discriminate.
    inversion Hall; subst. exists f0. split; [reflexivity | assumption].
  - destruct fs as [| f0 [| f1 fs]]; try discriminate.
    inversion Hall as [| ? ? Hf0 Htl]; subst.
    destruct (Rlt_dec x x1) as [H1 | H1].
    + rewrite interp_from_chord by lra. eexists. split; [reflexivity |].
      inversion Htl; subst. apply chord_between; [lra | assumption..].
    + rewrite interp_from_next by lra.
      apply IH; [simpl in *; lia | lra | exact Htl].
Qed.

Lemma np_interp_bounds (lo hi x : R) (xp : list R) (fs : list R) :
  List.length xp = List.length fs -> xp <> [] ->
  Forall (fun v => lo <= v <= hi) fs ->
  exists v, np_interp x xp (map fin fs) = Ok (Some v) /\ lo <= v <= hi.
Proof.
  intros Hlen Hne Hall. unfold np_interp.
  rewrite length_map, Hlen, Nat.eqb_refl. cbn [negb].
  destruct xp as [| x0 xp]; [contradiction |].
  destruct fs as [| f0 fs]; [discriminate |].
  cbn [map].
  destruct (Rlt_dec x x0) as [H0 | H0].
  - rewrite (R_ltb_true _ _ H0). exists f0.
    split; [reflexivity |]. inversion Hall; assumption.
  - rewrite R_ltb_false by lra.
    destruct (interp_from_bounds lo hi x x0 xp (f0 :: fs) Hlen) as (v & Hv & Hb);
      [lra | exact Hall |].
    exists v. cbn [map] in Hv. rewrite Hv. split; [reflexivity | exact Hb].
Qed.

(** X7. On a non-empty curve whose stored values are finite and lie between
    [lo] and [hi], the linear interpolator returns at every time a finite
    value between [lo] and [hi]: it never leaves the range of the spine
    points and never raises. *)
Theorem interpolator_stays_between_stored_values
    (c : ZCB_curve.obj) (which : string) (fs : list R) (lo hi : R) :
  which = "yield"%string \/ which = "discount factor"%string ->
  ZCB_curve.T_s c <> [] -> ascending (ZCB_curve.T_s c) ->
  stored c which = map fin fs ->
  List.length (ZCB_curve.T_s c) = List.length fs ->
  Forall (fun v => lo <= v <= hi) fs ->
  exists y,
    ZCB_curve.get_curve c "linear" which = Ok (Some y) /\
    forall x, exists v, y x = Ok (Some v) /\ lo <= v <= hi.
Proof.
  intros Hw Hne _ Hst Hlen Hall. eexists.
  split; [apply get_curve_linear; exact Hw |].
  intro x. rewrite Hst. apply np_interp_bounds; assumption.
Qed.

(** X7 for the discount factors of the example curve. *)
Lemma interpolator_stays_between_stored_values_witness :
  exists y,
    ZCB_curve.get_curve spine_curve "linear" "discount factor" = Ok (Some y) /\
    forall x, exists v, y x = Ok (Some v) /\ spine_d1 <= v <= spine_d0.
Proof.
  apply (interpolator_stays_between_stored_values spine_curve "discount factor"
           [spine_d0; spine_d1] spine_d1 spine_d0).
  - right. reflexivity.
  - discriminate.
  - exact spine_T_s_ascending.
  - exact spine_curve_dcf.
  - reflexivity.
  - repeat constructor; rewrite ?spine_d0_val, ?spine_d1_val; lra.
Defined.

Lemma interp_from_antitone (xp : list R) :
  forall (x0 : R) (fs : list R) (x x' : R),
  List.length (x0 :: xp) = List.length fs -> Sorted Rge fs ->
  x0 <= x <= x' ->
  exists v v',
    interp_from x (x0 :: xp) (map fin fs) = Some v /\
    interp_from x' (x0 :: xp) (map fin fs) = Some v' /\
    v' <= v /\ v <= hd 0 fs.
Proof.
  induction xp as [| x1 xp IH]; intros x0 fs x x' Hlen Hs [H0 Hx].
  - destruct fs as [| f0 [| ? ?]]; try discriminate.
    exists f0, f0. simpl. repeat split; lra.
  - destruct fs as [| f0 [| f1 fs]]; try discriminate.
    inversion Hs as [| ? ? Hs' Hhd]; subst.
    inversion Hhd as [| ? ? Hf]; subst.
    assert (Hlen' : List.length (x1 :: xp) = List.length (f1 :: fs))
      by (simpl in *; lia).
    destruct (Rlt_dec x x1) as [H1 | H1].
    + rewrite (interp_from_chord x) by lra.
      pose proof (chord_between f1 f0 x0 x1 f0 f1 x) as Hc.
      destruct (Rlt_dec x' x1) as [H1' | H1'].
      * rewrite (interp_from_chord x') by lra.
        do 2 eexists. repeat split.
        -- apply chord_antitone; lra.
        -- simpl. apply Hc; lra.
      * rewrite (interp_from_next x') by lra.
        destruct (IH x1 (f1 :: fs) x' x' Hlen' Hs') as (v & ? & Hv & _ & _ & Hb);
          [lra |].
        rewrite Hv. do 2 eexists. repeat split.
        -- simpl in Hb. assert (f1 <= chord x0 x1 f0 f1 x) by (apply Hc; lra).
           lra.
        -- simpl. apply Hc; lra.
    + rewrite (interp_from_next x), (interp_from_next x') by lra.
      destruct (IH x1 (f1 :: fs) x x' Hlen' Hs') as (v & v' & Hv & Hv' & Hle & Hb);
        [lra |].
      exists v, v'. repeat split; try assumption. simpl in *. lra.
Qed.

Lemma np_interp_antitone (xp : list R) (fs : list R) (x x' : R) :
  List.length xp = List.length fs -> xp <> [] -> Sorted Rge fs -> x <= x' ->
  exists v v',
    np_interp x xp (map fin fs) = Ok (Some v) /\
    np_interp x' xp (map fin fs) = Ok (Some v') /\
    v' <= v /\ v <= hd 0 fs.
Proof.
  intros Hlen Hne Hs Hx. unfold np_interp.
  rewrite length_map, Hlen, Nat.eqb_refl. cbn [negb].
  destruct xp as [| x0 xp]; [contradiction |].
  destruct fs as [| f0 fs]; [discriminate |].
  cbn [map]. change (fin f0 :: map fin fs) with (map fin (f0 :: fs)).
  destruct (Rlt_dec x x0) as [H0 | H0].
  - rewrite (R_ltb_true _ _ H0).
    destruct (Rlt_dec x' x0) as [H0' | H0'].
    + rewrite (R_ltb_true _ _ H0'). exists f0, f0. simpl. repeat split; lra.
    + rewrite R_ltb_false by lra.
      destruct (interp_from_antitone xp x0 (f0 :: fs) x' x' Hlen Hs)
        as (v & ? & Hv & _ & _ & Hb); [lra |].
      rewrite Hv. exists f0, v. simpl in *. repeat split; lra.
  - rewrite !R_ltb_false by lra.
    destruct (interp_from_antitone xp x0 (f0 :: fs) x x' Hlen Hs)
      as (v & v' & Hv & Hv' & Hle & Hb); [lra |].
    rewrite Hv, Hv'. exists v, v'. repeat split; assumption.
Qed.

Lemma Sorted_Rgt_Rge (fs : list R) : Sorted Rgt fs -> Sorted Rge fs.
Proof.
  induction 1 as [| f fs Hs IH Hhd]; constructor; [exact IH |].
  destruct Hhd; constructor. lra.
Qed.

(** X8. On a non-empty curve whose stored values do not increase with the
    maturity, the interpolated value does not increase with time, over the
    whole time axis. *)
Theorem interpolator_of_non_increasing_values
    (c : ZCB_curve.obj) (which : string) (fs : list R) :
  which = "yield"%string \/ which = "discount factor"%string ->
  ZCB_curve.T_s c <> [] -> ascending (ZCB_curve.T_s c) ->
  stored c which = map fin fs ->
  List.length (ZCB_curve.T_s c) = List.length fs ->
  Sorted Rge fs ->
  exists y,
    ZCB_curve.get_curve c "linear" which = Ok (Some y) /\
    forall x x', x <= x' ->
      exists v v', y x = Ok (Some v) /\ y x' = Ok (Some v') /\ v' <= v.
Proof.
  intros Hw Hne _ Hst Hlen Hs. eexists.
  split; [apply get_curve_linear; exact Hw |].
  intros x x' Hx. rewrite Hst.
  destruct (np_interp_antitone _ fs x x' Hlen Hne Hs Hx)
    as (v & v' & E & E' & Hle & _).
  exists v, v'. repeat split; assumption.
Qed.

(** X8 for the discount factors of the example curve. *)
Lemma interpolator_of_non_increasing_values_witness :
  exists y,
    ZCB_curve.get_curve spine_curve "linear" "discount factor" = Ok (Some y) /\
    forall x x', x <= x' ->
      exists v v', y x = Ok (Some v) /\ y x' = Ok (Some v') /\ v' <= v.
Proof.
  apply (interpolator_of_non_increasing_values spine_curve "discount factor"
           [spine_d0; spine_d1]).
  - right. reflexivity.
  - discriminate.
  - exact spine_T_s_ascending.
  - exact spine_curve_dcf.
  - reflexivity.
  - apply Sorted_Rgt_Rge. exact spine_dcf_decreasing.
Defined.

Lemma interp_from_decreasing (xp : list R) :
  forall (x0 : R) (fs : list R) (x x' : R),
  List.length (x0 :: xp) = List.length fs -> Sorted Rgt fs ->
  x0 <= x -> x < x' -> x' <= last (x0 :: xp) 0 ->
  exists v v',
    interp_from x (x0 :: xp) (map fin fs) = Some v /\
    interp_from x' (x0 :: xp) (map fin fs) = Some v' /\
    v' < v.
Proof.
  induction xp as [| x1 xp IH]; intros x0 fs x x' Hlen Hs H0 Hx Hlast.
  - simpl in Hlast. lra.
  - destruct fs as [| f0 [| f1 fs]]; try discriminate.
    inversion Hs as [| ? ? Hs' Hhd]; subst.
    inversion Hhd as [| ? ? Hf]; subst.
    assert (Hlen' : List.length (x1 :: xp) = List.length (f1 :: fs))
      by (simpl in *; lia).
    change (last (x0 :: x1 :: xp) 0) with (last (x1 :: xp) 0) in Hlast.
    destruct (Rlt_dec x x1) as [H1 | H1].
    + rewrite (interp_from_chord x) by lra.
      destruct (Rlt_dec x' x1) as [H1' | H1'].
      * rewrite (interp_from_chord x') by lra.
        do 2 eexists. repeat split. apply chord_decreasing; lra.
      * rewrite (interp_from_next x') by lra.
        destruct (interp_from_antitone xp x1 (f1 :: fs) x' x' Hlen'
                    (Sorted_Rgt_Rge _ Hs')) as (v & ? & Hv & _ & _ & Hb); [lra |].
        rewrite Hv. do 2 eexists. repeat split.
        simpl in Hb.
        assert (chord x0 x1 f0 f1 x1 < chord x0 x1 f0 f1 x)
          by (apply chord_decreasing; lra).
        assert (chord x0 x1 f0 f1 x1 = f1) by (unfold chord; field; lra).
        lra.
    + rewrite (interp_from_next x), (interp_from_next x') by lra.
      apply IH; try assumption; lra.
Qed.

Lemma np_interp_decreasing (xp : list R) (fs : list R) (x x' : R) :
  List.length xp = List.length fs -> Sorted Rgt fs ->
  hd 0 xp <= x -> x < x' -> x' <= last xp 0 ->
  exists v v',
    np_interp x xp (map fin fs) = Ok (Some v) /\
    np_interp x' xp (map fin fs) = Ok (Some v') /\
    v' < v.
Proof.
  intros Hlen Hs H0 Hx Hlast. unfold np_interp.
  rewrite length_map, Hlen, Nat.eqb_refl. cbn [negb].
  destruct xp as [| x0 xp]; [simpl in *; lra |].
  destruct fs as [| f0 fs]; [discriminate |].
  cbn [map]. change (fin f0 :: map fin fs) with (map fin (f0 :: fs)).
  simpl in H0. rewrite !R_ltb_false by lra.
  destruct (interp_from_decreasing xp x0 (f0 :: fs) x x' Hlen Hs H0 Hx Hlast)
    as (v & v' & Hv & Hv' & Hlt).
  rewrite Hv, Hv'. exists v, v'. repeat split; assumption.
Qed.

(** X9. On a curve whose stored values strictly decrease with the maturity,
    the interpolated value strictly decreases with time between the first
    and the last maturity. *)
Theorem interpolator_of_decreasing_values
    (c : ZCB_curve.obj) (which : string) (fs : list R) :
  which = "yield"%string \/ which = "discount factor"%string ->
  ascending (ZCB_curve.T_s c) ->
  stored c which = map fin fs ->
  List.length (ZCB_curve.T_s c) = List.length fs ->
  Sorted Rgt fs ->
  exists y,
    ZCB_curve.get_curve c "linear" which = Ok (Some y) /\
    forall x x',
      hd 0 (ZCB_curve.T_s c) <= x -> x < x' -> x' <= last (ZCB_curve.T_s c) 0 ->
      exists v v', y x = Ok (Some v) /\ y x' = Ok (Some v') /\ v' < v.
Proof.
  intros Hw _ Hst Hlen Hs. eexists.
  split; [apply get_curve_linear; exact Hw |].
  intros x x' H0 Hx Hl. rewrite Hst.
  apply np_interp_decreasing; assumption.
Qed.

(** X9 for the discount factors of the example curve. *)
Lemma interpolator_of_decreasing_values_witness :
  exists y,
    ZCB_curve.get_curve spine_curve "linear" "discount factor" = Ok (Some y) /\
    forall x x',
      hd 0 (ZCB_curve.T_s spine_curve) <= x -> x < x' ->
      x' <= last (ZCB_curve.T_s spine_curve) 0 ->
      exists v v', y x = Ok (Some v) /\ y x' = Ok (Some v') /\ v' < v.
Proof.
  apply (interpolator_of_decreasing_values spine_curve "discount factor"
           [spine_d0; spine_d1]).
  - right. reflexivity.
  - exact spine_T_s_ascending.
  - exact spine_curve_dcf.
  - reflexivity.
  - exact spine_dcf_decreasing.
Defined.

(** ** Discount factors between two times *)

(** X10. Forward discount factors multiply: for numbers [0 <= t < T < U],
    when [get_discount_factor(t, T)] and [get_discount_factor(T, U)] are
    finite their product is [get_discount_factor(t, U)]. *)
Theorem discount_factors_compose
    (c : ZCB_curve.obj) (t T U : pyobj) (x X W : R) (interpo : string)
    (a b : R) :
  number t = Some x -> number T = Some X -> number U = Some W ->
  0 <= x -> x < X -> X < W ->
  ZCB_curve.get_discount_factor c t T interpo = Ok (Some a) ->
  ZCB_curve.get_discount_factor c T U interpo = Ok (Some b) ->
  ZCB_curve.get_discount_factor c t U interpo = Ok (Some (a * b)).
Proof.
  intros Ht HT HU H0 H1 H2. unfold ZCB_curve.get_discount_factor.
  rewrite (time_of_t_number c t x Ht H0).
  rewrite (time_of_t_number c T X HT) by lra. simpl.
  rewrite (time_of_T_number c x None T X HT H1).
  rewrite (time_of_T_number c X None U W HU H2).
  rewrite (time_of_T_number c x None U W HU) by lra. simpl.
  destruct (ZCB_curve.get_curve c interpo "discount factor") as [curve |];
    simpl; [| discriminate].
  destruct (ZCB_curve.call curve X) as [[vX |] |];
    destruct (ZCB_curve.call curve x) as [[vx |] |];
    destruct (ZCB_curve.call curve W) as [[vW |] |]; simpl; try discriminate.
  destruct (Req_dec_T vx 0) as [Hx0 | Hx0];
    [rewrite (R_eqb_true _ _ Hx0); discriminate |].
  destruct (Req_dec_T vX 0) as [HX0 | HX0];
    [rewrite (R_eqb_true _ _ HX0); discriminate |].
  rewrite (R_eqb_false _ _ Hx0), (R_eqb_false _ _ HX0).
  intros [= <-] [= <-]. do 2 f_equal. field. split; assumption.
Qed.

(** X10 on [df_curve], for the times 0, 1/2 and 3/2. *)
Lemma discount_factors_compose_witness :
  ZCB_curve.get_discount_factor df_curve (PyInt 0) (PyFloat (3 / 2)) "linear" =
  Ok (Some (19 / 20 / (19 / 20) *
            (((9 / 10 - 19 / 20) / (2 - 1) * (3 / 2 - 1) + 19 / 20) / (19 / 20)))).
Proof.
  apply (discount_factors_compose df_curve (PyInt 0) (PyFloat (1 / 2))
           (PyFloat (3 / 2)) 0 (1 / 2) (3 / 2) "linear" _ _
           eq_refl eq_refl eq_refl).
  - lra.
  - lra.
  - lra.
  - exact df_curve_factor_0_half.
  - exact df_curve_factor_half_3_halves.
Defined.

(** X11. For two dates in strict order, the first not before the reference
    date of the curve, [get_discount_factor] gives what it gives for their
    day counts from the reference date divided by 365. *)
Theorem discount_factor_of_dates_is_that_of_year_offsets
    (c : ZCB_curve.obj) (s S : string) (d D : date) (interpo : string) :
  strptime s = Ok d -> strptime S = Ok D ->
  (ZCB_curve.t c <= d)%Z -> (d < D)%Z ->
  ZCB_curve.get_discount_factor c (PyStr s) (PyStr S) interpo =
  ZCB_curve.get_discount_factor c
    (PyFloat (IZR (d - ZCB_curve.t c) / 365))
    (PyFloat (IZR (D - ZCB_curve.t c) / 365)) interpo.
Proof.
  intros Hs HS Hd HD. unfold ZCB_curve.get_discount_factor. simpl.
  rewrite Hs. simpl. apply Z.leb_le in Hd as Hd'. rewrite Hd'. simpl.
  rewrite HS. simpl.
  assert (HdD : (d <=? D)%Z = true) by (apply Z.leb_le; lia).
  rewrite HdD. simpl.
  assert (H0 : 0 <= IZR (d - ZCB_curve.t c) / 365).
  { apply Rmult_le_pos; [apply IZR_le; lia | lra]. }
  assert (H1 : IZR (d - ZCB_curve.t c) / 365 < IZR (D - ZCB_curve.t c) / 365).
  { apply Rmult_lt_compat_r; [lra | apply IZR_lt; lia]. }
  rewrite (R_leb_true _ _ H0). simpl. rewrite (R_ltb_true _ _ H1). simpl.
  reflexivity.
Qed.

(** X11 on the example curve, for 2023-09-01 and 2023-12-01. *)
Lemma discount_factor_of_dates_is_that_of_year_offsets_witness :
  ZCB_curve.get_discount_factor spine_curve
    (PyStr "2023-09-01") (PyStr "2023-12-01") "linear" =
  ZCB_curve.get_discount_factor spine_curve
    (PyFloat (IZR (738672 + 92 - ZCB_curve.t spine_curve) / 365))
    (PyFloat (IZR (738672 + 183 - ZCB_curve.t spine_curve) / 365)) "linear".
Proof.
  apply (discount_factor_of_dates_is_that_of_year_offsets spine_curve
           "2023-09-01" "2023-12-01" (738672 + 92)%Z (738672 + 183)%Z "linear"
           strptime_20230901 strptime_20231201).
  - simpl. lia.
  - lia.
Defined.

Lemma positive_list_bounds (fs : list R) :
  Forall (fun v => 0 < v) fs ->
  exists lo hi, 0 < lo /\ Forall (fun v => lo <= v <= hi) fs.
Proof.
  induction 1 as [| f fs Hf _ (lo & hi & Hlo & Hall)].
  - exists 1, 1. split; [lra | constructor].
  - exists (Rmin f lo), (Rmax f hi). split.
    + apply Rmin_glb_lt; assumption.
    + constructor.
      * split; [apply Rmin_l | apply Rmax_l].
      * eapply Forall_impl; [| exact Hall]. simpl. intros v [H1 H2].
        pose proof (Rmin_r f lo). pose proof (Rmax_r f hi). lra.
Qed.

(** X12. On a curve with increasing maturities and positive, non-increasing
    discount factors, [get_discount_factor(t, T)] for numbers [0 <= t < T]
    returns a finite value in (0, 1]. *)
Theorem discount_factor_between_0_and_1
    (c : ZCB_curve.obj) (fs : list R) (t T : pyobj) (x X : R) :
  ZCB_curve.T_s c <> [] -> ascending (ZCB_curve.T_s c) ->
  ZCB_curve.dcf c = map fin fs ->
  List.length (ZCB_curve.T_s c) = List.length fs ->
  Forall (fun v => 0 < v) fs -> Sorted Rge fs ->
  number t = Some x -> number T = Some X -> 0 <= x < X ->
  exists v, ZCB_curve.get_discount_factor c t T "linear" = Ok (Some v) /\
            0 < v <= 1.
Proof.
  intros Hne _ Hdcf Hlen Hpos Hs Ht HT [H0 H1].
  unfold ZCB_curve.get_discount_factor.
  rewrite (time_of_t_number c t x Ht H0). simpl.
  rewrite (time_of_T_number c x None T X HT H1). simpl.
  rewrite Hdcf.
  destruct (np_interp_antitone _ fs x X Hlen Hne Hs) as (vx & vX & Ex & EX & Hle & _);
    [lra |].
  destruct (positive_list_bounds fs Hpos) as (lo & hi & Hlo & Hall).
  destruct (np_interp_bounds lo hi X _ fs Hlen Hne Hall) as (vX' & EX' & HbX).
  rewrite EX in EX'. injection EX' as <-.
  rewrite EX, Ex. simpl.
  assert (HvX : 0 < vX) by lra. assert (Hvx : 0 < vx) by lra.
  rewrite R_eqb_false by lra.
  eexists. split; [reflexivity |]. split.
  - apply Rdiv_lt_0_compat; assumption.
  - apply (Rmult_le_reg_r vx); [exact Hvx |].
    unfold Rdiv. rewrite Rmult_assoc, Rinv_l by lra. lra.
Qed.

(** X12 on [df_curve], for the times 0 and 3/2. *)
Lemma discount_factor_between_0_and_1_witness :
  exists v,
    ZCB_curve.get_discount_factor df_curve (PyInt 0) (PyFloat (3 / 2)) "linear"
      = Ok (Some v) /\ 0 < v <= 1.
Proof.
  apply (discount_factor_between_0_and_1 df_curve [19 / 20; 9 / 10]
           (PyInt 0) (PyFloat (3 / 2)) 0 (3 / 2)).
  - discriminate.
  - simpl. repeat constructor. lra.
  - reflexivity.
  - reflexivity.
  - repeat constructor; lra.
  - repeat constructor. lra.
  - reflexivity.
  - reflexivity.
  - lra.
Defined.

(** X13. [__init__] accepts empty sequences, and every discount-factor or
    forward-rate query with valid times on the curve it returns then raises
    [ValueError], for either compounding. *)
Theorem empty_curve_queries_raise
    (t : string) (kind : string) (f : R) (c : ZCB_curve.obj)
    (a b : pyobj) (x X g : R) :
  ZCB_curve.init t [] [] kind f = Ok c ->
  number a = Some x -> number b = Some X -> 0 <= x < X ->
  ZCB_curve.get_discount_factor c a b "linear" = Raise ValueError /\
  ZCB_curve.get_forward_rate c a b "linear" g = Raise ValueError.
Proof.
  intros Hinit Ha Hb [H0 H1].
  destruct (init_inv _ _ _ _ _ _ Hinit) as (_ & t0 & _ & [[_ ->] | [_ ->]]);
    unfold ZCB_curve.get_discount_factor, ZCB_curve.get_forward_rate;
    rewrite (time_of_t_number _ a x Ha H0); simpl;
    rewrite (time_of_T_number _ x None b X Hb H1); simpl;
    (split; [reflexivity |]); destruct (negb (R_eqb g 0)); reflexivity.
Qed.

(** X13 for [empty_curve]. *)
Lemma empty_curve_queries_raise_witness :
  ZCB_curve.get_discount_factor empty_curve (PyInt 0) (PyInt 1) "linear" =
    Raise ValueError /\
  ZCB_curve.get_forward_rate empty_curve (PyInt 0) (PyInt 1) "linear" (1 / 2) =
    Raise ValueError.
Proof.
  apply (empty_curve_queries_raise "2023-06-01" "yield" (1 / 2) empty_curve
           (PyInt 0) (PyInt 1) 0 1 (1 / 2) empty_curve_init eq_refl eq_refl).
  lra.
Defined.

(** ** Forward rates between two times *)

(** X14. [get_forward_rate] fails with [AssertionError] for a negative number
    [t], for numbers with [T <= t], and for two dates of which the first is
    before the reference date or the second before the first; for every
    interpolation method and compounding frequency. *)
Theorem forward_rate_checks_its_times
    (c : ZCB_curve.obj) (interpo : string) (f : R) :
  (forall t T x, number t = Some x -> x < 0 ->
     ZCB_curve.get_forward_rate c t T interpo f = Raise AssertionError) /\
  (forall t T x X, number t = Some x -> number T = Some X -> X <= x ->
     ZCB_curve.get_forward_rate c t T interpo f = Raise AssertionError) /\
  (forall s S d D, strptime s = Ok d -> strptime S = Ok D ->
     (d < ZCB_curve.t c \/ D < d)%Z ->
     ZCB_curve.get_forward_rate c (PyStr s) (PyStr S) interpo f =
     Raise AssertionError).
Proof.
  unfold ZCB_curve.get_forward_rate. split; [| split].
  - intros t T x Ht Hx.
    destruct t; simpl in Ht; try discriminate; injection Ht as <-; simpl;
      rewrite (R_leb_false _ _ Hx); reflexivity.
  - intros t T x X Ht HT Hx.
    destruct (Rle_dec 0 x) as [H0 | H0].
    + rewrite (time_of_t_number c t x Ht H0). simpl.
      destruct T; simpl in HT; try discriminate; injection HT as <-; simpl;
        rewrite (R_ltb_false _ _ Hx); reflexivity.
    + destruct t; simpl in Ht; try discriminate; injection Ht as <-; simpl;
        rewrite R_leb_false by lra; reflexivity.
  - intros s S d D Hs HS Hd. simpl. rewrite Hs. simpl.
    destruct (Z.leb_spec (ZCB_curve.t c) d) as [H1 | H1]; simpl; [| reflexivity].
    rewrite HS. simpl.
    destruct (Z.leb_spec d D) as [H2 | H2]; simpl; [lia | reflexivity].
Qed.

(** X14 on the example curve. *)
Lemma forward_rate_checks_its_times_witness :
  ZCB_curve.get_forward_rate spine_curve (PyInt (-1)) (PyInt 1) "linear" (1 / 2)
    = Raise AssertionError /\
  ZCB_curve.get_forward_rate spine_curve (PyInt 1) (PyFloat (1 / 2)) "linear"
    (1 / 2) = Raise AssertionError /\
  ZCB_curve.get_forward_rate spine_curve (PyStr "2023-12-01")
    (PyStr "2023-09-01") "linear" (1 / 2) = Raise AssertionError.
Proof.
  destruct (forward_rate_checks_its_times spine_curve "linear" (1 / 2))
    as (H1 & H2 & H3).
  split; [| split].
  - apply (H1 (PyInt (-1)) (PyInt 1) (-1) eq_refl). lra.
  - apply (H2 (PyInt 1) (PyFloat (1 / 2)) 1 (1 / 2) eq_refl eq_refl). lra.
  - apply (H3 "2023-12-01"%string "2023-09-01"%string (738672 + 183)%Z (738672 + 92)%Z
             strptime_20231201 strptime_20230901).
    right. lia.
Defined.

Lemma get_forward_rate_numbers (c : ZCB_curve.obj) (t T : pyobj) (x X f : R) :
  number t = Some x -> number T = Some X -> 0 <= x < X -> f <> 0 ->
  ZCB_curve.get_forward_rate c t T "linear" f =
    (yT <- np_interp X (ZCB_curve.T_s c) (ZCB_curve.r_s c) ;;
     yt <- np_interp x (ZCB_curve.T_s c) (ZCB_curve.r_s c) ;;
     Ok ((np_pow
            (np_pow (fin 1 + fin f * yT) (fin (X / f))
             / np_pow (fin 1 + fin f * yt) (fin (x / f)))
            (fin (f / (X - x))) - fin 1) / fin f)%fl).
Proof.
  intros Ht HT [H0 Hlt] Hf. unfold ZCB_curve.get_forward_rate.
  rewrite (time_of_t_number c t x Ht H0). simpl.
  rewrite (time_of_T_number c x None T X HT Hlt). simpl.
  rewrite (R_eqb_false _ _ Hf). simpl.
  destruct (np_interp X _ _) as [yT | e]; simpl; [| reflexivity].
  destruct (np_interp x _ _) as [yt | e]; simpl; [| reflexivity].
  rewrite R_eqb_false by lra. reflexivity.
Qed.

Lemma pow_R_pos (b y : R) : 0 < b -> pow_R b y = Some (Rpower b y).
Proof. intro H. unfold pow_R. rewrite (R_ltb_true _ _ H). reflexivity. Qed.

Lemma pow_R_0 (b : R) : pow_R b 0 = Some 1.
Proof.
  unfold pow_R.
  destruct (Rlt_dec 0 b) as [H | H].
  - rewrite (R_ltb_true _ _ H), Rpower_O by exact H. reflexivity.
  - rewrite R_ltb_false by lra.
    destruct (Req_dec_T b 0) as [E | E].
    + rewrite (R_eqb_true _ _ E). decide_R. reflexivity.
    + rewrite (R_eqb_false _ _ E). unfold is_integer.
      rewrite (ZfloorZ 0), R_eqb_refl. reflexivity.
Qed.

(** A power of a positive base that stays in the range of the doubles. *)
Lemma np_pow_pos (b e : R) :
  0 < b -> in_range (Rpower b e) ->
  np_pow (Some b) (Some e) = Some (Rpower b e).
Proof.
  intros Hb Hr. unfold np_pow, f_pow.
  rewrite (pow_R_pos _ _ Hb). apply np_round_in_range, Hr.
Qed.

Lemma in_range_moderate (v : R) : 1 <= v <= 1000000 -> in_range v.
Proof.
  intros [H1 H2]. unfold in_range. rewrite Rabs_pos_eq by lra.
  split.
  - apply Rle_trans with 1; [| exact H1].
    unfold DBL_TRUE_MIN. rewrite <- Rinv_1.
    apply Rinv_le_contravar; [lra |]. apply IZR_le. vm_compute. discriminate.
  - apply Rle_trans with 1000000; [exact H2 |].
    unfold DBL_MAX. apply IZR_le. vm_compute. discriminate.
Qed.

Lemma np_pow_0 (b : R) : np_pow (Some b) (Some 0) = Some 1.
Proof.
  unfold np_pow, f_pow. rewrite pow_R_0.
  apply np_round_in_range, in_range_moderate. lra.
Qed.

Lemma ln_le_minus_1 (b : R) : 0 < b -> ln b <= b - 1.
Proof.
  intro H. pose proof (exp_ineq1_le (ln b)) as E.
  rewrite exp_ln in E by exact H. lra.
Qed.

(** A sufficient bound: [b^e <= e^(e*(b - 1))] for [b >= 1] and [e >= 0]. *)
Lemma Rpower_in_range (b e : R) :
  1 <= b -> 0 <= e -> e * (b - 1) <= 600 -> in_range (Rpower b e).
Proof.
  intros Hb He H. unfold Rpower. apply exp_in_range.
  assert (L0 : 0 <= ln b).
  { rewrite <- ln_1.
    destruct Hb as [Hb | <-];
      [left; apply ln_increasing; lra | right; reflexivity]. }
  assert (L1 : ln b <= b - 1) by (apply ln_le_minus_1; lra).
  split.
  - apply Rle_trans with 0; [lra | apply Rmult_le_pos; assumption].
  - apply Rle_trans with (e * (b - 1)); [| exact H].
    apply Rmult_le_compat_l; assumption.
Qed.





(** X17. With one date for [t] and [T], not before the reference date,
    [get_forward_rate] passes its checks ([tdt <= Tdt]) and divides by
    [T - t = 0]: on a curve whose interpolator returns, a frequency other
    than 0 raises [ZeroDivisionError], and the frequency 0 gives a result
    that is not finite. *)
Theorem forward_rate_between_equal_dates
    (c : ZCB_curve.obj) (s : string) (d : date) (y : float) :
  strptime s = Ok d -> (ZCB_curve.t c <= d)%Z ->
  np_interp (IZR (d - ZCB_curve.t c) / 365) (ZCB_curve.T_s c) (ZCB_curve.r_s c)
    = Ok y ->
  (forall f, f <> 0 ->
     ZCB_curve.get_forward_rate c (PyStr s) (PyStr s) "linear" f =
     Raise ZeroDivisionError) /\
  ZCB_curve.get_forward_rate c (PyStr s) (PyStr s) "linear" 0 = Ok None.
Proof.
  intros Hs Hd Hy. unfold ZCB_curve.get_forward_rate. simpl.
  rewrite Hs. simpl. apply Z.leb_le in Hd. rewrite Hd. simpl.
  rewrite Z.leb_refl. simpl. unfold DAYS_IN_YEAR. rewrite Hy. simpl.
  split.
  - intros f Hf. rewrite (R_eqb_false _ _ Hf). simpl.
    rewrite R_eqb_true by lra. reflexivity.
  - rewrite R_eqb_refl. simpl.
    destruct (f_log _) as [v |]; simpl; [| reflexivity].
    rewrite R_eqb_true by lra. reflexivity.
Qed.

(** X17 on the example curve, for 2023-09-01. *)
Lemma forward_rate_between_equal_dates_witness :
  (forall f, f <> 0 ->
     ZCB_curve.get_forward_rate spine_curve (PyStr "2023-09-01")
       (PyStr "2023-09-01") "linear" f = Raise ZeroDivisionError) /\
  ZCB_curve.get_forward_rate spine_curve (PyStr "2023-09-01")
    (PyStr "2023-09-01") "linear" 0 = Ok None.
Proof.
  apply (forward_rate_between_equal_dates spine_curve "2023-09-01"
           (738672 + 92)%Z (Some 5) strptime_20230901).
  - simpl. lia.
  - apply spine_yield_left. simpl. lra.
Defined.

(** X18. With an interpolation method other than ['linear'],
    [get_forward_rate] never returns; for numbers [0 <= t < T] it raises the
    [TypeError] of calling [None]. *)
Theorem forward_rate_unsupported_interpolation
    (c : ZCB_curve.obj) (interpo : string) (f : R) :
  interpo <> "linear"%string ->
  (forall t T, raises (ZCB_curve.get_forward_rate c t T interpo f)) /\
  (forall t T x X, number t = Some x -> number T = Some X -> 0 <= x < X ->
     ZCB_curve.get_forward_rate c t T interpo f = Raise TypeError).
Proof.
  intro Hi. split.
  - intros t T. unfold ZCB_curve.get_forward_rate.
    destruct (ZCB_curve.time_of_t c t) as [p | e]; simpl;
      [| exists e; reflexivity].
    destruct (ZCB_curve.time_of_T c (fst p) (snd p) T) as [T' | e]; simpl;
      [| exists e; reflexivity].
    rewrite get_curve_not_linear by (auto using eq_refl).
    exists TypeError. simpl. destruct (negb _); reflexivity.
  - intros t T x X Ht HT [H0 Hlt]. unfold ZCB_curve.get_forward_rate.
    rewrite (time_of_t_number c t x Ht H0). simpl.
    rewrite (time_of_T_number c x None T X HT Hlt). simpl.
    rewrite get_curve_not_linear by (auto using eq_refl).
    simpl. destruct (negb _); reflexivity.
Qed.

(** X18 on the example curve, for the method ['cubic']. *)
Lemma forward_rate_unsupported_interpolation_witness :
  ZCB_curve.get_forward_rate spine_curve (PyInt 0) (PyInt 1) "cubic" (1 / 2) =
  Raise TypeError.
Proof.
  assert (H : "cubic"%string <> "linear"%string) by discriminate.
  apply (proj2 (forward_rate_unsupported_interpolation spine_curve "cubic"
                  (1 / 2) H) (PyInt 0) (PyInt 1) 0 1 eq_refl eq_refl).
  lra.
Defined.

(** ** What [FRA.__init__] checks and stores *)

(** X19. Built from two date strings, an agreement does not depend on the
    [tau] it is given: [__init__] stores the two parsed dates, their day
    counts from inception divided by 365 as [T] and [S], and the day count
    between them divided by 365 as [tau]. *)
Theorem fra_of_dates_recomputes_tau
    (t a b : string) (tau tau' N : R) (c : ZCB_curve.obj) (f : R) :
  FRA.init t (PyStr a) (PyStr b) tau N c f =
  FRA.init t (PyStr a) (PyStr b) tau' N c f /\
  forall fra, FRA.init t (PyStr a) (PyStr b) tau N c f = Ok fra ->
    strptime a = Ok (FRA.dtT fra) /\ strptime b = Ok (FRA.dtS fra) /\
    FRA.T fra = IZR (FRA.dtT fra - FRA.dtt fra) / 365 /\
    FRA.S fra = IZR (FRA.dtS fra - FRA.dtt fra) / 365 /\
    FRA.tau fra = IZR (FRA.dtS fra - FRA.dtT fra) / 365.
Proof.
  split; [reflexivity |].
  intros fra Hinit.
  destruct (FRA_init_inv _ _ _ _ _ _ _ _ Hinit) as (_ & _ & Hq & _).
  unfold FRA.times in Hq. simpl in Hq.
  destruct (strptime a) as [dT |]; simpl in Hq; [| discriminate].
  destruct (strptime b) as [dS |]; simpl in Hq; [| discriminate].
  injection Hq as <- <- <- <- <-. repeat split.
Qed.

(** X19 for the example agreement built from dates. *)
Lemma fra_of_dates_recomputes_tau_witness :
  FRA.tau fra_dates = IZR (FRA.dtS fra_dates - FRA.dtT fra_dates) / 365.
Proof.
  apply (proj2 (fra_of_dates_recomputes_tau "2023-06-01" "2023-09-01"
                  "2023-12-01" (91 / 365) 0 1000000 spine_curve (1 / 2))
           fra_dates fra_dates_init).
Defined.

(** X20. [FRA.__init__], given an inception date that parses, fails with
    [AssertionError] for two dates of which the settlement is not after the
    maturity or when the curve is anchored on another day than the
    inception; and for two integer day offsets when [tau] is not
    [(S - T) / 365], when [S <= T], or when the curve is anchored on another
    day. *)
Theorem fra_init_rejections
    (t : string) (d0 : date) (tau N : R) (c : ZCB_curve.obj) (f : R) :
  strptime t = Ok d0 ->
  (forall a b dT dS, strptime a = Ok dT -> strptime b = Ok dS ->
     (dS <= dT)%Z \/ d0 <> ZCB_curve.t c ->
     FRA.init t (PyStr a) (PyStr b) tau N c f = Raise AssertionError) /\
  (forall m n dT dS,
     date_add_days d0 (PyInt m) = Ok dT -> date_add_days d0 (PyInt n) = Ok dS ->
     tau <> IZR (n - m) / 365 \/ (n <= m)%Z \/ d0 <> ZCB_curve.t c ->
     FRA.init t (PyInt m) (PyInt n) tau N c f = Raise AssertionError).
Proof.
  intro Ht. split.
  - intros a b dT dS Ha Hb Hbad. unfold FRA.init, FRA.times. simpl.
    rewrite Ht. simpl. rewrite Ha. simpl. rewrite Hb. simpl.
    destruct (Z.ltb_spec dT dS) as [Hlt | Hge]; simpl; [| reflexivity].
    destruct Hbad as [Hbad | Hbad]; [lia |].
    apply Z.eqb_neq in Hbad. rewrite Hbad. reflexivity.
  - intros m n dT dS Hm Hn Hbad. unfold FRA.init, FRA.times. simpl.
    rewrite Ht. simpl. rewrite Hm, Hn. simpl.
    apply date_add_days_inv in Hm, Hn. simpl in Hm, Hn.
    destruct Hm as (? & [= <-] & ->). destruct Hn as (? & [= <-] & ->).
    destruct (Req_dec_T tau ((IZR n - IZR m) / 365)) as [E | E].
    + rewrite (R_eqb_true _ _ E). simpl.
      destruct (Z.ltb_spec (d0 + m) (d0 + n)) as [Hlt | Hge]; simpl;
        [| reflexivity].
      destruct Hbad as [Hbad | [Hbad | Hbad]].
      * rewrite minus_IZR in Hbad. contradiction.
      * lia.
      * apply Z.eqb_neq in Hbad. rewrite Hbad. reflexivity.
    + rewrite (R_eqb_false _ _ E). reflexivity.
Qed.

(** X20 on the example curve: dates in the wrong order, and a wrong [tau]. *)
Lemma fra_init_rejections_witness :
  FRA.init "2023-06-01" (PyStr "2023-12-01") (PyStr "2023-09-01") (91 / 365)
    1000000 spine_curve (1 / 2) = Raise AssertionError /\
  FRA.init "2023-06-01" (PyInt 92) (PyInt 183) (1 / 4)
    1000000 spine_curve (1 / 2) = Raise AssertionError.
Proof.
  destruct (fra_init_rejections "2023-06-01" 738672%Z (91 / 365) 1000000
              spine_curve (1 / 2) strptime_20230601) as [H1 _].
  destruct (fra_init_rejections "2023-06-01" 738672%Z (1 / 4) 1000000
              spine_curve (1 / 2) strptime_20230601) as [_ H2].
  split.
  - apply (H1 "2023-12-01"%string "2023-09-01"%string (738672 + 183)%Z (738672 + 92)%Z
             strptime_20231201 strptime_20230901).
    left. lia.
  - apply (H2 92%Z 183%Z (738672 + 92)%Z (738672 + 183)%Z eq_refl eq_refl).
    left. simpl. lra.
Defined.

Lemma round_half_even_mono (a b : R) :
  a <= b -> (round_half_even a <= round_half_even b)%Z.
Proof.
  intro Hab. unfold round_half_even. cbv zeta.
  pose proof (Zfloor_bound a) as [Ha1 Ha2].
  pose proof (Zfloor_bound b) as [Hb1 Hb2].
  pose proof (Zfloor_le a b Hab) as Hfl.
  destruct (Z.eq_dec (Zfloor a) (Zfloor b)) as [E | NE].
  - rewrite <- E in *.
    unfold R_ltb.
    repeat match goal with
    | |- context [Rlt_dec ?u ?v] => destruct (Rlt_dec u v)
    end; try lia; try lra;
    destruct (Z.even (Zfloor a)); lia.
  - assert (Zfloor a + 1 <= Zfloor b)%Z by lia.
    unfold R_ltb.
    repeat match goal with
    | |- context [Rlt_dec ?u ?v] => destruct (Rlt_dec u v)
    end;
    repeat match goal with
    | |- context [Z.even ?u] => destruct (Z.even u)
    end; lia.
Qed.

Lemma timedelta_days_mono (v w : pyobj) (x y : R) (m n : Z) :
  type v = type w -> number v = Some x -> number w = Some y ->
  timedelta_days v = Ok m -> timedelta_days w = Ok n ->
  y <= x -> (n <= m)%Z.
Proof.
  destruct v as [a | a | |], w as [b | b | |]; simpl; try discriminate;
    intros _ [= <-] [= <-] [= <-] [= <-] Hle.
  - apply le_IZR. exact Hle.
  - apply Z.div_le_mono; [reflexivity |].
    apply round_half_even_mono.
    apply Rmult_le_compat_r; [apply IZR_le; discriminate | exact Hle].
Qed.

Lemma fra_init_order
    (t : string) (T S : pyobj) (tau N : R) (c : ZCB_curve.obj) (f : R)
    (fra : FRA.obj) :
  FRA.init t T S tau N c f = Ok fra ->
  FRA.T fra < FRA.S fra /\
  0 < FRA.tau fra /\
  (type T = t_str -> FRA.tau fra = FRA.S fra - FRA.T fra) /\
  (type T <> t_str -> FRA.tau fra = (FRA.S fra - FRA.T fra) / 365).
Proof.
  intro Hinit.
  destruct (FRA_init_inv _ _ _ _ _ _ _ _ Hinit)
    as (Hty & _ & Hq & Hlt & _).
  unfold FRA.times in Hq.
  destruct (pytype_eqb (type T) t_str) eqn:Hstr.
  - destruct (FRA.strptime_obj T) as [dT |]; simpl in Hq; [| discriminate].
    destruct (FRA.strptime_obj S) as [dS |]; simpl in Hq; [| discriminate].
    injection Hq as E1 E2 E3 E4 E5. subst dT dS.
    rewrite <- E3, <- E4, <- E5. unfold DAYS_IN_YEAR.
    assert (H1 : IZR (FRA.dtT fra - FRA.dtt fra) < IZR (FRA.dtS fra - FRA.dtt fra))
      by (apply IZR_lt; lia).
    assert (H2 : 0 < IZR (FRA.dtS fra - FRA.dtT fra)) by (apply IZR_lt; lia).
    repeat split.
    + lra.
    + lra.
    + intros _. rewrite !minus_IZR. lra.
    + intro H. destruct T; simpl in Hstr; try discriminate. contradiction.
  - destruct (number T) as [x |] eqn:HT; [| discriminate].
    destruct (date_add_days (FRA.dtt fra) T) as [dT |] eqn:HdT; simpl in Hq;
      [| discriminate].
    destruct (date_add_days (FRA.dtt fra) S) as [dS |] eqn:HdS; simpl in Hq;
      [| discriminate].
    destruct (number S) as [y |] eqn:HS; [| discriminate].
    destruct (Req_dec_T tau ((y - x) / 365)) as [E | E];
      [rewrite (R_eqb_true _ _ E) in Hq | rewrite (R_eqb_false _ _ E) in Hq];
      simpl in Hq; [| discriminate].
    injection Hq as E1 E2 E3 E4 E5. subst dT dS x y.
    apply date_add_days_inv in HdT, HdS.
    destruct HdT as (m & Hm & HdT). destruct HdS as (n & Hn & HdS).
    assert (Hxy : FRA.T fra < FRA.S fra).
    { destruct (Rlt_dec (FRA.T fra) (FRA.S fra)) as [H | H]; [exact H |].
      pose proof (timedelta_days_mono T S _ _ m n Hty HT HS Hm Hn) as Hmn.
      assert (n <= m)%Z by (apply Hmn; lra). lia. }
    repeat split.
    + exact Hxy.
    + rewrite <- E5, E. lra.
    + intro H. rewrite H in Hstr. discriminate.
    + intros _. rewrite <- E5. exact E.
Qed.

(** X21. Every agreement [FRA.__init__] returns holds the curve it was given,
    anchored on its inception date, has its maturity date strictly before
    its settlement date, [T < S] and [tau > 0]; [tau] is [S - T] when built
    from dates and [(S - T) / 365] when built from day offsets. *)
Theorem fra_init_invariants
    (t : string) (T S : pyobj) (tau N : R) (c : ZCB_curve.obj) (f : R)
    (fra : FRA.obj) :
  FRA.init t T S tau N c f = Ok fra ->
  FRA.ZCB_init fra = c /\
  FRA.dtt fra = ZCB_curve.t c /\
  (FRA.dtT fra < FRA.dtS fra)%Z /\
  FRA.T fra < FRA.S fra /\
  0 < FRA.tau fra /\
  (type T = t_str -> FRA.tau fra = FRA.S fra - FRA.T fra) /\
  (type T <> t_str -> FRA.tau fra = (FRA.S fra - FRA.T fra) / 365).
Proof.
  intro Hinit.
  destruct (FRA_init_inv _ _ _ _ _ _ _ _ Hinit)
    as (_ & _ & _ & Hlt & Hal & _ & Hc & _ & _).
  split; [exact Hc |]. split; [exact Hal |]. split; [exact Hlt |].
  exact (fra_init_order _ _ _ _ _ _ _ _ Hinit).
Qed.

(** X21 for the example agreement built from day offsets. *)
Lemma fra_init_invariants_witness :
  FRA.ZCB_init fra_days = spine_curve /\
  FRA.dtt fra_days = ZCB_curve.t spine_curve /\
  (FRA.dtT fra_days < FRA.dtS fra_days)%Z /\
  FRA.T fra_days < FRA.S fra_days /\
  0 < FRA.tau fra_days /\
  (type (PyInt 92) = t_str -> FRA.tau fra_days = FRA.S fra_days - FRA.T fra_days) /\
  (type (PyInt 92) <> t_str ->
   FRA.tau fra_days = (FRA.S fra_days - FRA.T fra_days) / 365).
Proof.
  exact (fra_init_invariants "2023-06-01" (PyInt 92) (PyInt 183) (91 / 365)
           1000000 spine_curve (1 / 2) fra_days fra_days_init).
Defined.

(** X22. On a curve with increasing maturities and positive, non-increasing
    discount factors, the fair rate [K] that [FRA.__init__] computes is
    finite and not negative. *)
Theorem fair_rate_is_not_negative
    (t : string) (T S : pyobj) (tau N : R) (c : ZCB_curve.obj) (f : R)
    (fra : FRA.obj) (fs : list R) :
  FRA.init t T S tau N c f = Ok fra ->
  ascending (ZCB_curve.T_s c) ->
  ZCB_curve.dcf c = map fin fs ->
  List.length (ZCB_curve.T_s c) = List.length fs ->
  Forall (fun v => 0 < v) fs -> Sorted Rge fs ->
  exists k, FRA.K fra = Some k /\ 0 <= k.
Proof.
  intros Hinit _ Hdcf Hlen Hpos Hs.
  destruct (fra_init_order _ _ _ _ _ _ _ _ Hinit) as (HTS & Htau & _).
  destruct (FRA_init_inv _ _ _ _ _ _ _ _ Hinit)
    as (_ & _ & _ & _ & _ & HK & _).
  unfold FRA.simple_forward, discount_curve in HK. simpl in HK.
  rewrite Hdcf in HK.
  assert (Hne : ZCB_curve.T_s c <> []).
  { intro E. rewrite E in HK. unfold np_interp in HK. simpl in HK.
    destruct (negb _); discriminate. }
  destruct (np_interp_antitone _ fs (FRA.T fra / DAYS_IN_YEAR)
              (FRA.S fra / DAYS_IN_YEAR) Hlen Hne Hs)
    as (vT & vS & ET & ES & Hle & _);
    [unfold DAYS_IN_YEAR; lra |].
  destruct (positive_list_bounds fs Hpos) as (lo & hi & Hlo & Hall).
  destruct (np_interp_bounds lo hi (FRA.S fra / DAYS_IN_YEAR) _ fs Hlen Hne Hall)
    as (vS' & ES' & HbS).
  rewrite ES in ES'. injection ES' as <-.
  rewrite ET, ES in HK. simpl in HK.
  rewrite R_eqb_false in HK by lra. simpl in HK.
  rewrite R_eqb_false in HK by lra.
  injection HK as HK. eexists. split; [symmetry; exact HK |].
  apply Rmult_le_pos; [| apply Rlt_le, Rinv_0_lt_compat; exact Htau].
  assert (1 <= vT / vS); [| lra].
  apply (Rmult_le_reg_r vS); [lra |].
  unfold Rdiv. rewrite Rmult_assoc, Rinv_l by lra. lra.
Qed.

(** X22 for the example agreement built from day offsets. *)
Lemma fair_rate_is_not_negative_witness :
  exists k, FRA.K fra_days = Some k /\ 0 <= k.
Proof.
  apply (fair_rate_is_not_negative "2023-06-01" (PyInt 92) (PyInt 183) (91 / 365)
           1000000 spine_curve (1 / 2) fra_days [spine_d0; spine_d1]
           fra_days_init spine_T_s_ascending spine_curve_dcf eq_refl
           spine_dcf_positive (Sorted_Rgt_Rge _ spine_dcf_decreasing)).
Defined.

(** ** Valuation *)

(** X23. Overriding the rate moves the value linearly: if [get_value] returns
    the finite value [v] for an agreement of finite rate [k], then after
    [set_price(k')] it returns [v + N * tau * (k - k')] for the same time
    and curve. *)
Theorem value_after_set_price
    (fra : FRA.obj) (t : pyobj) (c : ZCB_curve.obj) (v k k' : R) :
  FRA.get_value fra t c = Ok (Some v) ->
  FRA.K fra = Some k ->
  FRA.get_value (FRA.set_price fra (Some k')) t c =
  Ok (Some (v + FRA.N fra * FRA.tau fra * (k - k'))).
Proof.
  unfold FRA.get_value, FRA.value_at, FRA.set_price. simpl.
  intros Hv Hk. rewrite Hk in Hv.
  destruct (number t) as [x |].
  - destruct (assert _); simpl in *; [| discriminate].
    destruct (date_add_days _ _); simpl in *; [| discriminate].
    destruct (FRA.simple_forward _ _ _ _) as [[r |] |]; simpl in *;
      try discriminate.
    injection Hv as <-. do 2 f_equal. ring.
  - destruct t; try discriminate.
    destruct (strptime s); simpl in *; [| discriminate].
    destruct (assert _); simpl in *; [| discriminate].
    destruct (FRA.simple_forward _ _ _ _) as [[r |] |]; simpl in *;
      try discriminate.
    injection Hv as <-. do 2 f_equal. ring.
Qed.

(** X23 for the example agreement at inception, with the rate 1/20. *)
Lemma value_after_set_price_witness :
  FRA.get_value (FRA.set_price fra_days (Some (1 / 20))) (PyInt 0) spine_curve =
  Ok (Some (0 + FRA.N fra_days * FRA.tau fra_days *
                ((spine_d0 / spine_mid - 1) / (91 / 365) - 1 / 20))).
Proof.
  apply (value_after_set_price fra_days (PyInt 0) spine_curve 0 _ (1 / 20)
           fra_days_value_at_0 eq_refl).
Defined.

(** X24. [get_value] with an integer [t <= T] for which inception plus
    [365 * t] days is no date of the years 1 to 9999 raises [OverflowError]:
    the date is computed for the diagnostic message before the value. *)
Theorem get_value_date_out_of_range
    (fra : FRA.obj) (c : ZCB_curve.obj) (z : Z) :
  IZR z <= FRA.T fra ->
  (FRA.dtt fra + 365 * z < MINORDINAL \/ MAXORDINAL < FRA.dtt fra + 365 * z)%Z ->
  FRA.get_value fra (PyInt z) c = Raise OverflowError.
Proof.
  intros Hz Hout. unfold FRA.get_value.
  rewrite get_curve_discount. cbn [bind number].
  rewrite (R_leb_true _ _ Hz). cbn [assert bind].
  unfold date_add_days. cbn [FRA.days_of timedelta_days bind].
  set (n := (365 * z)%Z) in *.
  destruct (Z.abs n <=? 999999999)%Z; cbn [andb bind]; [| reflexivity].
  destruct (Z.leb_spec MINORDINAL (FRA.dtt fra + n)); cbn [andb bind];
    [| reflexivity].
  destruct (Z.leb_spec (FRA.dtt fra + n) MAXORDINAL); cbn [andb bind];
    [lia | reflexivity].
Qed.

(** X24 for the example agreement, 3000 years before inception. *)
Lemma get_value_date_out_of_range_witness :
  FRA.get_value fra_days (PyInt (-3000)) spine_curve = Raise OverflowError.
Proof.
  apply (get_value_date_out_of_range fra_days spine_curve (-3000)%Z).
  - simpl. lra.
  - left. simpl. unfold MINORDINAL. lia.
Defined.
